(** * Variable hints of codemirror-graphql

    A shallow embedding of
    [packages/codemirror-graphql/src/variables/hint.js]: the resolver
    [getVariablesHint] and its type-recovery pass [getTypeInfo], with the
    theorems that relate them to the written specification. Line numbers
    are those of that file.

    Conventions of the embedding.
    - JavaScript's [null] and [undefined] are both [None]: every consumer in
      the file (truthiness tests, [instanceof], [getNamedType],
      [getNullableType]) treats the two alike.
    - A JavaScript object used as a map is an association list of its own
      properties in insertion order, which is the order of [Object.keys]
      for names that are no array indices (GraphQL names never are). An
      object has no repeated key; the theorems that need it assume
      [NoDup (keys o)].
    - A [TypeError] raised by reading a property of [null] or [undefined] is
      an explicit outcome, never hidden.
    - The functions are given twice: on values, where the assignments to
      [info] are passed along as a new [info], and on a store, where the
      chain, the mapping and [info] are objects at locations. *)

From Stdlib Require Import ZArith String Ascii List.
From stdpp Require Import base option list strings gmap.

Set Warnings "-register-all".

Local Open Scope Z_scope.

(** ** JavaScript values used by the file *)

(** An object used as a map from property names to values. *)
Definition JSObject (A : Type) : Type := list (string * A).

(** [Object.keys(o)]. *)
Definition keys {A : Type} (o : JSObject A) : list string := map fst o.

(** [o[k]] for a property name [k]; [None] is [undefined]. *)
Fixpoint get {A : Type} (o : JSObject A) (k : string) : option A :=
  match o with
  | [] => None
  | (k', v) :: o' => if String.eqb k' k then Some v else get o' k
  end.

(** The property name a value stands for in [o[v]]: a string is itself and
    [null] is the name spelled n-u-l-l. *)
Definition propertyKey (v : option string) : string :=
  match v with
  | Some s => s
  | None => "null"
  end.

(** Truthiness of a string-or-null value: [null] and the empty string are
    falsy. *)
Definition truthyString (v : option string) : option string :=
  match v with
  | Some s => if String.eqb s "" then None else Some s
  | None => None
  end.

(** [Object.keys(a)] for an array [a]: its indices in ascending order. *)
Definition arrayKeys {A : Type} (a : list A) : list nat := seq 0 (length a).

(** The double-quote character and a name between double quotes. *)
Definition dquote : string := String "034"%char EmptyString.

Definition quoted (s : string) : string := dquote +:+ s +:+ dquote.

(** ** The type system (package graphql)

    Input types as finite trees: named types (scalars, enums, input
    objects) under the list and non-null wrappers; an input object that
    refers to itself is outside this representation. [getFields()] of an
    input object is an object from field names to fields, [getValues()] of
    an enum is an array. [GraphQLBoolean] is the one object that the
    package exports under that name; [GraphQLScalarType] is any other
    scalar object, whatever its name, so that a test of identity with
    [GraphQLBoolean] is a test of the constructor. *)

Record GraphQLEnumValue : Type := mkEnumValue {
  value_name : string;
  value_description : option string
}.

Inductive GraphQLType : Type :=
| GraphQLBoolean
| GraphQLScalarType (name : string)
| GraphQLEnumType (name : string) (values : list GraphQLEnumValue)
| GraphQLInputObjectType (name : string)
    (fields : list (string * GraphQLInputField))
| GraphQLList (ofType : GraphQLType)
| GraphQLNonNull (ofType : GraphQLType)
with GraphQLInputField : Type :=
| mkInputField (name : string) (type : GraphQLType)
    (description : option string).

Definition field_name (f : GraphQLInputField) : string :=
  match f with mkInputField n _ _ => n end.

Definition field_type (f : GraphQLInputField) : GraphQLType :=
  match f with mkInputField _ t _ => t end.

Definition field_description (f : GraphQLInputField) : option string :=
  match f with mkInputField _ _ d => d end.

(** [getNullableType(type)]: strips one non-null wrapper; a falsy argument
    gives [undefined]. *)
Definition getNullableType (type : option GraphQLType) : option GraphQLType :=
  match type with
  | Some (GraphQLNonNull ofType) => Some ofType
  | Some t => Some t
  | None => None
  end.

(** The loop of [getNamedType]: strips every list and non-null wrapper. *)
Fixpoint unwrapType (t : GraphQLType) : GraphQLType :=
  match t with
  | GraphQLList ofType => unwrapType ofType
  | GraphQLNonNull ofType => unwrapType ofType
  | _ => t
  end.

(** [getNamedType(type)]; a falsy argument gives [undefined]. *)
Definition getNamedType (type : option GraphQLType) : option GraphQLType :=
  match type with
  | Some t => Some (unwrapType t)
  | None => None
  end.

(** The named form of a type, stated on its own: the type under all its
    list and non-null wrappers. *)
Inductive NamedForm : GraphQLType -> GraphQLType -> Prop :=
| NamedForm_boolean : NamedForm GraphQLBoolean GraphQLBoolean
| NamedForm_scalar (n : string) :
    NamedForm (GraphQLScalarType n) (GraphQLScalarType n)
| NamedForm_enum (n : string) (values : list GraphQLEnumValue) :
    NamedForm (GraphQLEnumType n values) (GraphQLEnumType n values)
| NamedForm_object (n : string) (fs : list (string * GraphQLInputField)) :
    NamedForm (GraphQLInputObjectType n fs) (GraphQLInputObjectType n fs)
| NamedForm_list (t u : GraphQLType) :
    NamedForm t u -> NamedForm (GraphQLList t) u
| NamedForm_nonNull (t u : GraphQLType) :
    NamedForm t u -> NamedForm (GraphQLNonNull t) u.

(** ** Parser states, tokens, options and candidates *)

(** A state of the variables-mode parser. [kind] is compared with string
    literals only; [prevState] is the enclosing state, [None] at the end of
    the chain, so that a chain is finite and has no cycle; [name] is [null]
    ([None]) until the parser has read the variable or field name. *)
Inductive ParseState : Type := mkState {
  kind : string;
  step : Z;
  name : option string;
  prevState : option ParseState
}.

(** The editor's cursor and token; only [state] is read by this file, the
    other fields are for [hintList]. *)
Record Cursor : Type := mkCursor { line : Z; ch : Z }.

Record Token : Type := mkToken {
  tok_start : Z;
  tok_end : Z;
  tok_string : string;
  tok_type : option string;
  state : ParseState
}.

(** The same token with another parser state. *)
Definition withState (token : Token) (s : ParseState) : Token :=
  {| tok_start := tok_start token; tok_end := tok_end token;
     tok_string := tok_string token; tok_type := tok_type token;
     state := s |}.

(** [options]: the [variableToType] object may be missing. *)
Record Options : Type := mkOptions {
  variableToType : option (JSObject GraphQLType)
}.

(** A completion candidate; an absent [type] or [description] is [None]. *)
Record Candidate : Type := mkCandidate {
  text : string;
  type : option GraphQLType;
  description : option string
}.

(** What [hintList] returns when it returns something: the list and the
    range it replaces, as read back by the registered helper (lines 45-47). *)
Record HintPos : Type := mkHintPos { hint_line : Z; hint_column : Z }.

Record HintResult : Type := mkHintResult {
  hint_list : list Candidate;
  hint_from : HintPos;
  hint_to : HintPos
}.

(** The outcome of a call: a value ([None] is [undefined]) or a
    [TypeError]. *)
Inductive Outcome (A : Type) : Type :=
| Return (r : A)
| TypeError.

Arguments Return {A} r.
Arguments TypeError {A}.

(** ** Type recovery: [getTypeInfo] (lines 141-168) *)

(** Modelled from the spec: forEachState, of utils/forEachState.js, which is
    not among the sources. Section 4.1: the callback is invoked once per
    state, from the outermost ancestor to the innermost state, with no
    filtering, ending at a state with no predecessor. The callback's effect
    on the variables it closes over is passed along as [acc]. *)
Fixpoint forEachState {A : Type} (stack : ParseState)
    (fn : A -> ParseState -> A) (acc : A) : A :=
  match stack with
  | mkState _ _ _ None => fn acc stack
  | mkState _ _ _ (Some outer) => fn (forEachState outer fn acc) stack
  end.

(** The chain of a state, innermost first: the state, then its ancestors. *)
Fixpoint stateChain (s : ParseState) : list ParseState :=
  match s with
  | mkState _ _ _ None => [s]
  | mkState _ _ _ (Some outer) => s :: stateChain outer
  end.

(** The [info] object. *)
Record TypeInfo : Type := mkTypeInfo {
  info_type : option GraphQLType;
  info_fields : option (JSObject GraphQLInputField)
}.

(** The callback of [getTypeInfo] (lines 148-164): [info] before the call,
    the visited state, [info] after the call. *)
Definition visitState (variableToType : JSObject GraphQLType)
    (info : TypeInfo) (state : ParseState) : TypeInfo :=
  if String.eqb (kind state) "Variable" then
    {| info_type := get variableToType (propertyKey (name state));
       info_fields := info_fields info |}
  else if String.eqb (kind state) "ListValue" then
    let nullableType := getNullableType (info_type info) in
    {| info_type :=
         match nullableType with
         | Some (GraphQLList ofType) => Some ofType
         | _ => None
         end;
       info_fields := info_fields info |}
  else if String.eqb (kind state) "ObjectValue" then
    let objectType := getNamedType (info_type info) in
    {| info_type := info_type info;
       info_fields :=
         match objectType with
         | Some (GraphQLInputObjectType _ fields) => Some fields
         | _ => None
         end |}
  else if String.eqb (kind state) "ObjectField" then
    let objectField :=
      match truthyString (name state), info_fields info with
      | Some n, Some fields => get fields n
      | _, _ => None
      end in
    {| info_type :=
         match objectField with
         | Some f => Some (field_type f)
         | None => None
         end;
       info_fields := info_fields info |}
  else info.

Definition getTypeInfo (variableToType : JSObject GraphQLType)
    (tokenState : ParseState) : TypeInfo :=
  forEachState tokenState (visitState variableToType)
    {| info_type := None; info_fields := None |}.

(** ** Candidate generation: [getVariablesHint] (lines 54-137) *)

(** The candidate of the open brace (lines 64 and 117). *)
Definition braceCandidate : Candidate :=
  {| text := "{"; type := None; description := None |}.

(** The candidate of one variable name (lines 80-83). *)
Definition variableCandidate (variableToType : JSObject GraphQLType)
    (name : string) : Candidate :=
  {| text := quoted name +:+ ": ";
     type := get variableToType name;
     description := None |}.

(** The candidate of one input field (lines 96-100). *)
Definition fieldCandidate (field : GraphQLInputField) : Candidate :=
  {| text := quoted (field_name field) +:+ ": ";
     type := Some (field_type field);
     description := field_description field |}.

(** The candidate of one enum value (lines 124-128). *)
Definition valueCandidate (namedInputType : GraphQLType)
    (value : GraphQLEnumValue) : Candidate :=
  {| text := quoted (value_name value);
     type := Some namedInputType;
     description := value_description value |}.

(** The two boolean candidates (lines 131-134). *)
Definition booleanCandidates : list Candidate :=
  [ {| text := "true"; type := Some GraphQLBoolean;
       description := Some "Not false." |};
    {| text := "false"; type := Some GraphQLBoolean;
       description := Some "Not true." |} ].

(** The state the resolver dispatches on (lines 56-57): the prior state of
    an Invalid state, the token's state otherwise. [None] is a missing
    prior state. *)
Definition dispatchState (token : Token) : option ParseState :=
  if String.eqb (kind (state token)) "Invalid"
  then prevState (state token)
  else Some (state token).

(** The test of lines 106-114: the state is a value position. *)
Definition isValuePosition (kind : string) (step : Z) : bool :=
  String.eqb kind "StringValue" ||
  String.eqb kind "NumberValue" ||
  String.eqb kind "BooleanValue" ||
  String.eqb kind "NullValue" ||
  (String.eqb kind "ListValue" && Z.eqb step 1) ||
  (String.eqb kind "ObjectField" && Z.eqb step 2) ||
  (String.eqb kind "Variable" && Z.eqb step 2).

Section Resolver.

(** [hintList], of utils/hintList.js, is not among the sources: the resolver
    is parametric in it. It receives the cursor, the token and the
    candidates, and returns a result of some type [R] or [undefined]. *)
Context {R : Type}.

Variable hintList : Cursor -> Token -> list Candidate -> option R.

(** Lines 105-136: hints for an input value of the recovered type. Line 120
    reads the element at each index of [valueMap]; lines 124-128 read
    [value.name], a [TypeError] on a missing element. *)
Definition valueHints (cur : Cursor) (token : Token) (typeInfo : TypeInfo)
    (kind : string) (step : Z) : Outcome (option R) :=
  if isValuePosition kind step then
    match getNamedType (info_type typeInfo) with
    | Some (GraphQLInputObjectType _ _) =>
        Return (hintList cur token [braceCandidate])
    | Some (GraphQLEnumType n valueMap) =>
        let namedInputType := GraphQLEnumType n valueMap in
        match mapM (fun name => valueMap !! name) (arrayKeys valueMap) with
        | Some values =>
            Return (hintList cur token
                      (map (valueCandidate namedInputType) values))
        | None => TypeError
        end
    | Some GraphQLBoolean => Return (hintList cur token booleanCandidates)
    | _ => Return None
    end
  else Return None.

(** Lines 54-137. Reading [state.kind] at line 59 is a [TypeError] when the
    prior state of an Invalid state is missing; lines 96-100 read
    [field.name], a [TypeError] on a missing field. *)
Definition getVariablesHint (cur : Cursor) (token : Token)
    (options : Options) : Outcome (option R) :=
  match dispatchState token with
  | None => TypeError
  | Some state0 =>
    let kind := kind state0 in
    let step := step state0 in
    if String.eqb kind "Document" && Z.eqb step 0 then
      Return (hintList cur token [braceCandidate])
    else
      match variableToType options with
      | None => Return None
      | Some variableToType =>
        let typeInfo := getTypeInfo variableToType (state token) in
        if String.eqb kind "Document" ||
           (String.eqb kind "Variable" && Z.eqb step 0) then
          let variableNames := keys variableToType in
          Return (hintList cur token
                    (map (variableCandidate variableToType) variableNames))
        else if String.eqb kind "ObjectValue" ||
                (String.eqb kind "ObjectField" && Z.eqb step 0) then
          match info_fields typeInfo with
          | Some fields =>
              match mapM (fun fieldName => get fields fieldName)
                      (keys fields) with
              | Some inputFields =>
                  Return (hintList cur token (map fieldCandidate inputFields))
              | None => TypeError
              end
          | None => valueHints cur token typeInfo kind step
          end
        else valueHints cur token typeInfo kind step
      end
  end.

(** What the caller gets when the resolver ends by calling [hintList] on
    the given candidates, returns nothing, or raises. *)
Definition callHintList (cur : Cursor) (token : Token)
    (r : Outcome (option (list Candidate))) : Outcome (option R) :=
  match r with
  | Return (Some candidates) => Return (hintList cur token candidates)
  | Return None => Return None
  | TypeError => TypeError
  end.

End Resolver.

(** The [hintList] that returns the candidates it is given: with it the
    resolver returns the candidates of its call of [hintList]. *)
Definition candidatesOnly (cur : Cursor) (token : Token)
    (candidates : list Candidate) : option (list Candidate) :=
  Some candidates.

(** The states of lines 106-114, as a proposition. *)
Definition valuePosition (s : ParseState) : Prop :=
  kind s = "StringValue" \/ kind s = "NumberValue" \/
  kind s = "BooleanValue" \/ kind s = "NullValue" \/
  (kind s = "ListValue" /\ step s = 1) \/
  (kind s = "ObjectField" /\ step s = 2) \/
  (kind s = "Variable" /\ step s = 2).

(** ** The resolver on a store

    The same code with the objects it shares with its caller kept in a
    store: the nodes of the parser's chain, the [variableToType] object, and
    the [info] object that [getTypeInfo] creates and assigns to. Types and
    field maps stay values: the file only reads them. *)

Definition Loc : Type := positive.

Inductive StoreObject : Type :=
| StateObject (kind : string) (step : Z) (name : option string)
    (prevState : option Loc)
| MapObject (entries : JSObject GraphQLType)
| InfoObject (type : option GraphQLType)
    (fields : option (JSObject GraphQLInputField)).

Abbreviation Store := (gmap Loc StoreObject).

(** A run ends with an outcome and a store, or the fuel of the chain walk
    runs out (a walk that does not end). *)
Inductive Step (A : Type) : Type :=
| Finished (o : Outcome A) (σ : Store)
| OutOfFuel.

Arguments Finished {A} o σ.
Arguments OutOfFuel {A}.

Definition Run (A : Type) : Type := Store -> Step A.

#[global] Instance Run_ret : MRet Run :=
  fun A (a : A) σ => Finished (Return a) σ.

#[global] Instance Run_bind : MBind Run :=
  fun A B (f : A -> Run B) (m : Run A) σ =>
    match m σ with
    | Finished (Return a) σ' => f a σ'
    | Finished TypeError σ' => Finished TypeError σ'
    | OutOfFuel => OutOfFuel
    end.

Definition throw {A : Type} : Run A := fun σ => Finished TypeError σ.

(** Reading the object at a location. *)
Definition load (l : Loc) : Run StoreObject :=
  fun σ =>
    match σ !! l with
    | Some o => Finished (Return o) σ
    | None => Finished TypeError σ
    end.

(** Creating an object: [{ ... }]. *)
Definition alloc (o : StoreObject) : Run Loc :=
  fun σ => let l := fresh (dom σ) in Finished (Return l) (<[l:=o]> σ).

(** Assigning to a property of the object at a location. *)
Definition assign (l : Loc) (update : StoreObject -> option StoreObject)
    : Run unit :=
  fun σ =>
    match σ !! l ≫= update with
    | Some o => Finished (Return tt) (<[l:=o]> σ)
    | None => Finished TypeError σ
    end.

(** [info.type], [info.fields], [info.type = v] and [info.fields = v]. *)
Definition readInfo (info : Loc) : Run TypeInfo :=
  o ← load info;
  match o with
  | InfoObject t f => mret {| info_type := t; info_fields := f |}
  | _ => throw
  end.

Definition setType (info : Loc) (v : option GraphQLType) : Run unit :=
  assign info (fun o =>
    match o with InfoObject _ f => Some (InfoObject v f) | _ => None end).

Definition setFields (info : Loc)
    (v : option (JSObject GraphQLInputField)) : Run unit :=
  assign info (fun o =>
    match o with InfoObject t _ => Some (InfoObject t v) | _ => None end).

(** The entries of the [variableToType] object. *)
Definition readMap (variableToType : Loc) : Run (JSObject GraphQLType) :=
  o ← load variableToType;
  match o with
  | MapObject entries => mret entries
  | _ => throw
  end.

(** The callback of [getTypeInfo] (lines 148-164) on the store. *)
Definition visitStateS (variableToType info state : Loc) : Run unit :=
  o ← load state;
  match o with
  | StateObject kind _ name _ =>
    if String.eqb kind "Variable" then
      entries ← readMap variableToType;
      setType info (get entries (propertyKey name))
    else if String.eqb kind "ListValue" then
      i ← readInfo info;
      let nullableType := getNullableType (info_type i) in
      setType info
        match nullableType with
        | Some (GraphQLList ofType) => Some ofType
        | _ => None
        end
    else if String.eqb kind "ObjectValue" then
      i ← readInfo info;
      let objectType := getNamedType (info_type i) in
      setFields info
        match objectType with
        | Some (GraphQLInputObjectType _ fields) => Some fields
        | _ => None
        end
    else if String.eqb kind "ObjectField" then
      i ← readInfo info;
      let objectField :=
        match truthyString name, info_fields i with
        | Some n, Some fields => get fields n
        | _, _ => None
        end in
      setType info
        match objectField with
        | Some f => Some (field_type f)
        | None => None
        end
    else mret tt
  | _ => throw
  end.

(** Modelled from the spec: forEachState on the store, following
    [prevState] references (section 4.1: ancestors first, then the state;
    a chain with a cycle is walked without end, here until the fuel is
    spent). *)
Fixpoint forEachStateS (fuel : nat) (stack : Loc) (fn : Loc -> Run unit)
    : Run unit :=
  match fuel with
  | O => fun _ => OutOfFuel
  | S fuel' =>
    o ← load stack;
    match o with
    | StateObject _ _ _ None => fn stack
    | StateObject _ _ _ (Some outer) =>
        forEachStateS fuel' outer fn ;; fn stack
    | _ => throw
    end
  end.

(** [getTypeInfo] on the store: the location of the new [info] object. *)
Definition getTypeInfoS (fuel : nat) (variableToType tokenState : Loc)
    : Run Loc :=
  info ← alloc (InfoObject None None);
  forEachStateS fuel tokenState (visitStateS variableToType info) ;;
  mret info.

(** Lines 105-136 on the store: the candidates handed to [hintList], or
    [None] where the function returns nothing. *)
Definition valueHintsS (typeInfo : TypeInfo) (kind : string) (step : Z)
    : Run (option (list Candidate)) :=
  if isValuePosition kind step then
    match getNamedType (info_type typeInfo) with
    | Some (GraphQLInputObjectType _ _) => mret (Some [braceCandidate])
    | Some (GraphQLEnumType n valueMap) =>
        let namedInputType := GraphQLEnumType n valueMap in
        match mapM (fun name => valueMap !! name) (arrayKeys valueMap) with
        | Some values =>
            mret (Some (map (valueCandidate namedInputType) values))
        | None => throw
        end
    | Some GraphQLBoolean => mret (Some booleanCandidates)
    | _ => mret None
    end
  else mret None.

(** Lines 62-136 on the store, for the [kind] and [step] read at lines
    59-60: the candidates handed to [hintList], which is always the last
    action, or [None] where the function returns nothing. *)
Definition hintsForS (fuel : nat) (tokenState : Loc)
    (variableToType : option Loc) (kind : string) (step : Z)
    : Run (option (list Candidate)) :=
  if String.eqb kind "Document" && Z.eqb step 0 then
    mret (Some [braceCandidate])
  else
    match variableToType with
    | None => mret None
    | Some variableToType =>
      info ← getTypeInfoS fuel variableToType tokenState;
      typeInfo ← readInfo info;
      if String.eqb kind "Document" ||
         (String.eqb kind "Variable" && Z.eqb step 0) then
        entries ← readMap variableToType;
        mret (Some (map (variableCandidate entries) (keys entries)))
      else if String.eqb kind "ObjectValue" ||
              (String.eqb kind "ObjectField" && Z.eqb step 0) then
        match info_fields typeInfo with
        | Some fields =>
            match mapM (fun fieldName => get fields fieldName)
                    (keys fields) with
            | Some inputFields =>
                mret (Some (map fieldCandidate inputFields))
            | None => throw
            end
        | None => valueHintsS typeInfo kind step
        end
      else valueHintsS typeInfo kind step
    end.

(** [getVariablesHint] on the store, up to its calls of [hintList].
    [tokenState] is [token.state] and [variableToType] is
    [options.variableToType]. *)
Definition getVariablesHintS (fuel : nat) (tokenState : Loc)
    (variableToType : option Loc) : Run (option (list Candidate)) :=
  o ← load tokenState;
  match o with
  | StateObject kind0 _ _ prevState0 =>
    match (if String.eqb kind0 "Invalid" then prevState0
           else Some tokenState) with
    | None => throw
    | Some state0 =>
      o0 ← load state0;
      match o0 with
      | StateObject kind step _ _ =>
          hintsForS fuel tokenState variableToType kind step
      | _ => throw
      end
    end
  | _ => throw
  end.

(** The [info] object with the given contents. *)
Definition infoObject (info : TypeInfo) : StoreObject :=
  InfoObject (info_type info) (info_fields info).

(** The store holds the chain [s] at location [l]. *)
Fixpoint reprState (σ : Store) (l : Loc) (s : ParseState) : Prop :=
  match s with
  | mkState k st n None => σ !! l = Some (StateObject k st n None)
  | mkState k st n (Some outer) =>
      exists p, σ !! l = Some (StateObject k st n (Some p)) /\
                reprState σ p outer
  end.

(** The store holds the [variableToType] object of the options, if any. *)
Definition reprOptions (σ : Store) (l : option Loc) (options : Options)
    : Prop :=
  match l, variableToType options with
  | None, None => True
  | Some l, Some v => σ !! l = Some (MapObject v)
  | _, _ => False
  end.

(** ** The registered helper (lines 40-52) *)

(** The editor, as far as the helper uses it: [editor.getCursor()] and
    [editor.getTokenAt(pos)]. *)
Record Editor : Type := mkEditor {
  getCursor : Cursor;
  getTokenAt : Cursor -> Token
}.

(** [CodeMirror.Pos(line, ch)]: a position of the editor, as [getCursor]
    returns them. *)
Definition Pos (line ch : Z) : Cursor := {| line := line; ch := ch |}.

(** A position of the results: the object [hintList] made, or the editor
    position that lines 46-47 put in its place. *)
Inductive ResultPos : Type :=
| HintListPos (p : HintPos)
| EditorPos (p : Cursor).

(** The [results] object when the helper returns it. *)
Record Results : Type := mkResults {
  results_list : list Candidate;
  results_from : ResultPos;
  results_to : ResultPos
}.

(** [CodeMirror.signal(editor, 'hasCompletion', editor, results, token)]. *)
Inductive Signal : Type :=
| HasCompletion (editor : Editor) (results : Results) (token : Token).

(** The line of a position, and its column ([column] or [ch]). *)
Definition posLine (p : ResultPos) : Z :=
  match p with
  | HintListPos q => hint_line q
  | EditorPos q => line q
  end.

Definition posColumn (p : ResultPos) : Z :=
  match p with
  | HintListPos q => hint_column q
  | EditorPos q => ch q
  end.

Section Helper.

(** [hintList] with the result shape that lines 45-47 read. *)
Variable hintList : Cursor -> Token -> list Candidate -> option HintResult.

(** The function registered as the hint helper of graphql-variables: its
    outcome and the signals it sends, in order. *)
Definition hintHelper (editor : Editor) (options : Options)
    : Outcome (option Results) * list Signal :=
  let cur := getCursor editor in
  let token := getTokenAt editor cur in
  match getVariablesHint hintList cur token options with
  | TypeError => (TypeError, [])
  | Return None => (Return None, [])
  | Return (Some results) =>
    if Nat.ltb 0 (length (hint_list results)) then
      let results' :=
        {| results_list := hint_list results;
           results_from :=
             EditorPos (Pos (hint_line (hint_from results))
                            (hint_column (hint_from results)));
           results_to :=
             EditorPos (Pos (hint_line (hint_to results))
                            (hint_column (hint_to results))) |} in
      (Return (Some results'), [HasCompletion editor results' token])
    else
      (Return (Some {| results_list := hint_list results;
                       results_from := HintListPos (hint_from results);
                       results_to := HintListPos (hint_to results) |}),
       [])
  end.

End Helper.

(** ** Access paths

    A value inside a variable is reached by a path of list items and
    object fields. These definitions state what type recovery computes for
    a well-nested chain; they are not taken from the source. *)

(** A kind that no rule of [getTypeInfo] names. *)
Definition inertKind (k : string) : bool :=
  negb (String.eqb k "Variable" || String.eqb k "ListValue" ||
        String.eqb k "ObjectValue" || String.eqb k "ObjectField").

Inductive PathStep : Type :=
| Item
| Field (fieldName : string).

(** The element type of a list type, under at most one non-null wrapper. *)
Definition itemType (t : option GraphQLType) : option GraphQLType :=
  match getNullableType t with
  | Some (GraphQLList elementType) => Some elementType
  | _ => None
  end.

(** The fields of the input object a type names. *)
Definition fieldsOf (t : option GraphQLType)
    : option (JSObject GraphQLInputField) :=
  match getNamedType t with
  | Some (GraphQLInputObjectType _ fs) => Some fs
  | _ => None
  end.

Definition typeStep (t : option GraphQLType) (step : PathStep)
    : option GraphQLType :=
  match step with
  | Item => itemType t
  | Field y =>
      match fieldsOf t with
      | Some fs => field_type <$> get fs y
      | None => None
      end
  end.

(** The type at the end of a path that starts at a value of type [t]. *)
Definition typeAtPath (t : option GraphQLType) (path : list PathStep)
    : option GraphQLType :=
  fold_left typeStep path t.

(** [insideObject s s']: [s'] is an ObjectValue state entered at [s], under
    any number of states of inert kinds. *)
Inductive insideObject (s : ParseState) : ParseState -> Prop :=
| inside_open (st : Z) (n : option string) :
    insideObject s (mkState "ObjectValue" st n (Some s))
| inside_inert (s' : ParseState) (k : string) (st : Z) (n : option string) :
    insideObject s s' -> inertKind k = true ->
    insideObject s (mkState k st n (Some s')).

(** [descends base s path]: the chain of [s] continues the chain of [base]
    along [path]: a ListValue state per item, an ObjectValue state and then
    an ObjectField state with a non-empty name per field, and states of
    inert kinds anywhere. *)
Inductive descends (base : ParseState) : ParseState -> list PathStep -> Prop :=
| descends_here : descends base base []
| descends_inert (s : ParseState) (path : list PathStep)
    (k : string) (st : Z) (n : option string) :
    descends base s path -> inertKind k = true ->
    descends base (mkState k st n (Some s)) path
| descends_open (s : ParseState) (path : list PathStep)
    (st : Z) (n : option string) :
    descends base s path ->
    descends base (mkState "ObjectValue" st n (Some s)) path
| descends_item (s : ParseState) (path : list PathStep)
    (st : Z) (n : option string) :
    descends base s path ->
    descends base (mkState "ListValue" st n (Some s)) (path ++ [Item])
| descends_field (s s' : ParseState) (path : list PathStep)
    (st : Z) (y : string) :
    descends base s path -> insideObject s s' -> y <> "" ->
    descends base (mkState "ObjectField" st (Some y) (Some s'))
      (path ++ [Field y]).

(** ** Example data

    A small schema, a mapping and a few chains, used to run the definitions
    and to instantiate the theorems. *)

(** A [hintList] that keeps every candidate and replaces the token's range;
    it instantiates the parameter of the resolver in the examples. *)
Definition hintListAll (cur : Cursor) (token : Token)
    (candidates : list Candidate) : option HintResult :=
  Some {| hint_list := candidates;
          hint_from := {| hint_line := line cur;
                          hint_column := tok_start token |};
          hint_to := {| hint_line := line cur;
                        hint_column := tok_end token |} |}.

Definition GraphQLInt : GraphQLType := GraphQLScalarType "Int".

Definition GraphQLString : GraphQLType := GraphQLScalarType "String".

Definition fieldA : GraphQLInputField :=
  mkInputField "a" GraphQLInt (Some "first coordinate").

Definition fieldB : GraphQLInputField := mkInputField "b" GraphQLString None.

(** input Point { a: Int, b: String } *)
Definition PointInput : GraphQLType :=
  GraphQLInputObjectType "Point" [("a"%string, fieldA); ("b"%string, fieldB)].

(** enum Color { RED GREEN BLUE } *)
Definition ColorEnum : GraphQLType :=
  GraphQLEnumType "Color"
    [ mkEnumValue "RED" (Some "warm"); mkEnumValue "GREEN" None;
      mkEnumValue "BLUE" None ].

(** query ($x: Point, $on: Boolean!, $colors: [Color]) *)
Definition exampleVariables : JSObject GraphQLType :=
  [ ("x"%string, PointInput);
    ("on"%string, GraphQLNonNull GraphQLBoolean);
    ("colors"%string, GraphQLList ColorEnum) ].

Definition exampleOptions : Options :=
  {| variableToType := Some exampleVariables |}.

(** query ($p: Point!, $tags: [Color!]!, $flags: [Boolean!]) *)
Definition wrappedVariables : JSObject GraphQLType :=
  [ ("p"%string, GraphQLNonNull PointInput);
    ("tags"%string,
     GraphQLNonNull (GraphQLList (GraphQLNonNull ColorEnum)));
    ("flags"%string, GraphQLList (GraphQLNonNull GraphQLBoolean)) ].

Definition wrappedOptions : Options :=
  {| variableToType := Some wrappedVariables |}.

Definition noOptions : Options := {| variableToType := None |}.

Definition exampleCursor : Cursor := {| line := 0; ch := 1 |}.

(** A token at columns 0 to 1 in the given state. *)
Definition tokenIn (s : ParseState) : Token :=
  {| tok_start := 0; tok_end := 1; tok_string := " "; tok_type := None;
     state := s |}.

Definition documentStart : ParseState := mkState "Document" 0 None None.

Definition documentOpen : ParseState := mkState "Document" 1 None None.

Definition variableStart : ParseState :=
  mkState "Variable" 0 None (Some documentOpen).

(** The value position of variable [n]. *)
Definition variableValue (n : string) : ParseState :=
  mkState "Variable" 2 (Some n) (Some documentOpen).

Definition objectOfX : ParseState :=
  mkState "ObjectValue" 1 None (Some (variableValue "x")).

Definition fieldOfX (n : string) : ParseState :=
  mkState "ObjectField" 2 (Some n) (Some objectOfX).

Definition listOfColors : ParseState :=
  mkState "ListValue" 1 None (Some (variableValue "colors")).

(** The object of p, a field of it, and an item of tags and of flags. *)
Definition objectOfP : ParseState :=
  mkState "ObjectValue" 1 None (Some (variableValue "p")).

Definition fieldOfP (n : string) : ParseState :=
  mkState "ObjectField" 2 (Some n) (Some objectOfP).

Definition itemOf (n : string) : ParseState :=
  mkState "ListValue" 1 None (Some (variableValue n)).

Definition invalidOver (s : ParseState) : ParseState :=
  mkState "Invalid" 0 None (Some s).

Definition invalidAlone : ParseState := mkState "Invalid" 0 None None.

(** A store that holds the chain of [objectOfX] at location 3 and the
    example mapping at location 4. *)
Definition exampleStore : Store :=
  <[1%positive:=StateObject "Document" 1 None None]>
  (<[2%positive:=StateObject "Variable" 2 (Some "x"%string)
                   (Some 1%positive)]>
  (<[3%positive:=StateObject "ObjectValue" 1 None (Some 2%positive)]>
  (<[4%positive:=MapObject exampleVariables]> ∅))).

(** The texts of the candidates of an outcome, for the examples. *)
Definition candidateTexts (o : Outcome (option (list Candidate)))
    : list string :=
  match o with
  | Return (Some candidates) => map text candidates
  | _ => []
  end.

(** An editor whose cursor is the example cursor, on the given token. *)
Definition editorAt (token : Token) : Editor :=
  {| getCursor := exampleCursor; getTokenAt := fun _ => token |}.

(** The path to field b of variable x, and to the items of colors. *)
Definition pathToB : list PathStep := [Field "b"].

Definition pathToColor : list PathStep := [Item].

(** * Properties *)

(** ** Objects, arrays and chains *)

Lemma get_In {A : Type} (o : JSObject A) (k : string) (a : A) :
  get o k = Some a -> In (k, a) o.
Proof.
  induction o as [|[k' a'] o IH]; simpl; [discriminate|].
  destruct (String.eqb_spec k' k) as [->|Hne].
  - intros [= ->]. now left.
  - intros H. right. now apply IH.
Qed.

Lemma get_keys_is_Some {A : Type} (o : JSObject A) (k : string) :
  In k (keys o) -> is_Some (get o k).
Proof.
  induction o as [|[k' a'] o IH]; simpl; [tauto|].
  intros [->|Hin].
  - rewrite String.eqb_refl. eauto.
  - destruct (String.eqb k' k); eauto.
Qed.

(** In an object without repeated keys, reading each key in turn gives the
    entries in order. *)
Lemma mapM_get_keys {A : Type} (o : JSObject A) :
  NoDup (keys o) -> mapM (get o) (keys o) = Some (map snd o).
Proof.
  intros Hnd. apply mapM_Some.
  induction o as [|[k a] o IH]; simpl; [constructor|].
  inversion Hnd as [|? ? Hnotin Hnd']; subst.
  constructor.
  - now rewrite String.eqb_refl.
  - eapply Forall2_impl; [apply IH, Hnd'|].
    intros k' a' Hget. simpl.
    destruct (String.eqb_spec k k') as [->|_]; [|exact Hget].
    exfalso. apply Hnotin, list_elem_of_In. apply get_In in Hget.
    change k' with (fst (k', a')). now apply in_map.
Qed.

(** Reading each key in turn never meets a missing property, repeated keys
    or not. *)
Lemma mapM_get_keys_is_Some {A : Type} (o : JSObject A) :
  is_Some (mapM (get o) (keys o)).
Proof.
  apply mapM_is_Some, Forall_forall. intros k Hk.
  apply get_keys_is_Some. now apply list_elem_of_In.
Qed.

Lemma map_get_keys {A B : Type} (o : JSObject A) (f : string -> option A -> B) :
  NoDup (keys o) ->
  map (fun k => f k (get o k)) (keys o) = map (fun e => f (fst e) (Some (snd e))) o.
Proof.
  intros Hnd. pose proof (mapM_get_keys o Hnd) as HM.
  apply mapM_Some in HM. unfold keys in *.
  induction o as [|[k a] o IH]; simpl in *; [reflexivity|].
  rewrite String.eqb_refl. f_equal.
  inversion Hnd as [|? ? Hnotin Hnd']; subst.
  rewrite <- (IH Hnd').
  - apply map_ext_in. intros k' Hk'.
    destruct (String.eqb_spec k k') as [->|_]; [|reflexivity].
    exfalso. now apply Hnotin, list_elem_of_In.
  - apply mapM_Some, mapM_get_keys, Hnd'.
Qed.

(** Reading each index of an array in turn gives the array. *)
Lemma mapM_lookup_arrayKeys {A : Type} (a : list A) :
  mapM (fun i => a !! i) (arrayKeys a) = Some a.
Proof.
  apply mapM_Some. unfold arrayKeys.
  apply Forall2_same_length_lookup. split; [now rewrite length_seq|].
  intros i j x Hj Hx. apply lookup_seq in Hj as [-> _]. exact Hx.
Qed.

(** In an object without repeated keys, an entry is what reading its key
    gives; a name that is no key reads as undefined. *)
Lemma get_entry {A : Type} (o : JSObject A) (k : string) (a : A) :
  NoDup (keys o) -> In (k, a) o -> get o k = Some a.
Proof.
  induction o as [|[k' a'] o IH]; simpl; [tauto|].
  intros Hnd [Heq|Hin].
  - injection Heq as -> ->. now rewrite String.eqb_refl.
  - inversion Hnd as [|? ? Hnotin Hnd']; subst.
    destruct (String.eqb_spec k' k) as [->|_]; [|now apply IH].
    exfalso. apply Hnotin, list_elem_of_In.
    change k with (fst (k, a)). now apply in_map.
Qed.

Lemma get_absent {A : Type} (o : JSObject A) (k : string) :
  ~ In k (keys o) -> get o k = None.
Proof.
  induction o as [|[k' a'] o IH]; simpl; [reflexivity|].
  intros Hnot. destruct (String.eqb_spec k' k) as [->|_]; [tauto|].
  apply IH. tauto.
Qed.

(** [getNamedType] computes the named form. *)
Lemma unwrapType_NamedForm (t u : GraphQLType) :
  NamedForm t u -> unwrapType t = u.
Proof. induction 1; cbn; auto. Qed.

(** Induction along a chain, from its end to the innermost state. *)
Lemma ParseState_chain_ind (P : ParseState -> Prop) :
  (forall k st n, P (mkState k st n None)) ->
  (forall k st n outer, P outer -> P (mkState k st n (Some outer))) ->
  forall s, P s.
Proof.
  intros Hend Hstep. fix IH 1.
  intros [k st n [outer|]]; [apply Hstep, IH|apply Hend].
Qed.

Lemma forEachState_fold {A : Type} (fn : A -> ParseState -> A) (acc : A)
    (s : ParseState) :
  forEachState s fn acc = fold_left fn (rev (stateChain s)) acc.
Proof.
  induction s as [k st n|k st n outer IH] using ParseState_chain_ind.
  - reflexivity.
  - change (stateChain (mkState k st n (Some outer)))
      with (mkState k st n (Some outer) :: stateChain outer).
    cbn [rev]. rewrite fold_left_app. cbn [fold_left forEachState].
    now rewrite IH.
Qed.

(** The chain starts at the state itself and follows [prevState]. *)
Lemma stateChain_unfold (s : ParseState) :
  stateChain s =
  s :: match prevState s with Some outer => stateChain outer | None => [] end.
Proof. destruct s as [k st n [outer|]]; reflexivity. Qed.

(** ** Type recovery *)

(** A state whose kind is none of Variable, ListValue, ObjectValue and
    ObjectField leaves the recovered type and fields as they are. *)
Theorem visitState_other_kind (v : JSObject GraphQLType) (info : TypeInfo)
    (st : ParseState) :
  kind st <> "Variable" -> kind st <> "ListValue" ->
  kind st <> "ObjectValue" -> kind st <> "ObjectField" ->
  visitState v info st = info.
Proof.
  intros H1 H2 H3 H4. unfold visitState.
  apply String.eqb_neq in H1, H2, H3, H4. now rewrite H1, H2, H3, H4.
Qed.

(** C1. The type-recovery pass applies the callback once per state of the
    chain, outermost state first. On a Variable state it sets the type to
    the mapping's entry for the name, or to undefined without one. On a
    ListValue state it descends into the element type of a list type,
    through a non-null wrapper if there is one, and sets the type to null
    for every other type. On an ObjectValue state it sets the fields to the
    field map of the named form of the type when that is an input object,
    and to null otherwise. On an ObjectField state with a name and active
    fields it sets the type to the declared type of that field, or to null
    when the field is absent. For the chain Variable x, ObjectValue,
    ObjectField y the recovered type is the declared type of field y of the
    input object that the type of x names. *)
Theorem getTypeInfo_rules (v : JSObject GraphQLType) (s : ParseState) :
  getTypeInfo v s =
    fold_left (visitState v) (rev (stateChain s))
      {| info_type := None; info_fields := None |}
  /\ (forall info st x,
        kind st = "Variable" -> name st = Some x ->
        info_fields (visitState v info st) = info_fields info
        /\ (forall t, NoDup (keys v) -> In (x, t) v ->
              info_type (visitState v info st) = Some t)
        /\ (~ In x (keys v) -> info_type (visitState v info st) = None))
  /\ (forall info st,
        kind st = "ListValue" ->
        info_fields (visitState v info st) = info_fields info
        /\ (forall e, info_type info = Some (GraphQLList e) ->
              info_type (visitState v info st) = Some e)
        /\ (forall e, info_type info = Some (GraphQLNonNull (GraphQLList e)) ->
              info_type (visitState v info st) = Some e)
        /\ (info_type info = None ->
              info_type (visitState v info st) = None)
        /\ (forall u, info_type info = Some u ->
              (forall e, u <> GraphQLList e) ->
              (forall e, u <> GraphQLNonNull (GraphQLList e)) ->
              info_type (visitState v info st) = None))
  /\ (forall info st,
        kind st = "ObjectValue" ->
        info_type (visitState v info st) = info_type info
        /\ (forall t n fs, info_type info = Some t ->
              NamedForm t (GraphQLInputObjectType n fs) ->
              info_fields (visitState v info st) = Some fs)
        /\ (forall t u, info_type info = Some t -> NamedForm t u ->
              (forall n fs, u <> GraphQLInputObjectType n fs) ->
              info_fields (visitState v info st) = None)
        /\ (info_type info = None ->
              info_fields (visitState v info st) = None))
  /\ (forall info st y fs,
        kind st = "ObjectField" -> name st = Some y -> y <> "" ->
        info_fields info = Some fs ->
        info_fields (visitState v info st) = Some fs
        /\ (forall fname ftype fdescription, NoDup (keys fs) ->
              In (y, mkInputField fname ftype fdescription) fs ->
              info_type (visitState v info st) = Some ftype)
        /\ (~ In y (keys fs) -> info_type (visitState v info st) = None))
  /\ (forall x y st1 st2 st3 n2 ctx t n fs fname ftype fdescription,
        NoDup (keys v) -> In (x, t) v ->
        NamedForm t (GraphQLInputObjectType n fs) ->
        NoDup (keys fs) ->
        In (y, mkInputField fname ftype fdescription) fs -> y <> "" ->
        info_type
          (getTypeInfo v
             (mkState "ObjectField" st3 (Some y)
                (Some (mkState "ObjectValue" st2 n2
                   (Some (mkState "Variable" st1 (Some x) ctx))))))
        = Some ftype).
Proof.
  split; [apply forEachState_fold|].
  split; [|split; [|split; [|split]]].
  - intros info st x Hk Hn. unfold visitState. rewrite Hk, Hn. cbn.
    split; [reflexivity|]. split.
    + intros t Hnd Hin. now apply get_entry.
    + intros Hnot. now apply get_absent.
  - intros info st Hk. unfold visitState. rewrite Hk. cbn.
    split; [reflexivity|]. split; [|split; [|split]].
    + intros e ->. reflexivity.
    + intros e ->. reflexivity.
    + intros ->. reflexivity.
    + intros u -> Hlist Hnonnull. cbn.
      destruct u as [|n|n vs|n fs|e|[|n|n vs|n fs|e|e]]; try reflexivity.
      * now destruct (Hlist e).
      * now destruct (Hnonnull e).
  - intros info st Hk. unfold visitState. rewrite Hk. cbn.
    split; [reflexivity|]. split; [|split].
    + intros t n fs -> Hnamed. cbn.
      now rewrite (unwrapType_NamedForm _ _ Hnamed).
    + intros t u -> Hnamed Hnot. cbn.
      rewrite (unwrapType_NamedForm _ _ Hnamed).
      destruct u as [|n|n vs|n fs|e|e]; try reflexivity.
      now destruct (Hnot n fs).
    + intros ->. reflexivity.
  - intros info st y fs Hk Hn Hne Hfs. unfold visitState.
    rewrite Hk, Hn, Hfs. cbn.
    apply String.eqb_neq in Hne. rewrite Hne.
    split; [reflexivity|]. split.
    + intros fname ftype fdescription Hnd Hin.
      now rewrite (get_entry _ _ _ Hnd Hin).
    + intros Hnot. now rewrite (get_absent _ _ Hnot).
  - intros x y st1 st2 st3 n2 ctx t n fs fname ftype fdescription
      Hndv Hx Hnamed Hndf Hy Hne.
    apply String.eqb_neq in Hne.
    unfold getTypeInfo. destruct ctx as [outer|]; cbn [forEachState];
      unfold visitState at 1 2 3; cbn;
      rewrite (get_entry _ _ _ Hndv Hx); cbn;
      rewrite (unwrapType_NamedForm _ _ Hnamed), Hne;
      now rewrite (get_entry _ _ _ Hndf Hy).
Qed.

(** ** Candidate generation *)

Lemma append_assoc (s t u : string) : (s +:+ t) +:+ u = s +:+ (t +:+ u).
Proof.
  induction s as [|a s IH]; [reflexivity|].
  change (String a ((s +:+ t) +:+ u) = String a (s +:+ (t +:+ u))).
  now rewrite IH.
Qed.

Section ResolverProperties.

Context {R : Type}.

Variable hintList : Cursor -> Token -> list Candidate -> option R.

Lemma isValuePosition_spec (s : ParseState) :
  valuePosition s -> isValuePosition (kind s) (step s) = true.
Proof.
  unfold valuePosition, isValuePosition.
  intros [H|[H|[H|[H|[[H H']|[[H H']|[H H']]]]]]];
    rewrite H; try rewrite H'; reflexivity.
Qed.

(** A value position is none of the states the earlier branches take. *)
Lemma valuePosition_branches (s : ParseState) :
  valuePosition s ->
  String.eqb (kind s) "Document" = false /\
  String.eqb (kind s) "Variable" && Z.eqb (step s) 0 = false /\
  String.eqb (kind s) "ObjectValue" = false /\
  String.eqb (kind s) "ObjectField" && Z.eqb (step s) 0 = false.
Proof.
  unfold valuePosition.
  intros [H|[H|[H|[H|[[H H']|[[H H']|[H H']]]]]]];
    rewrite H; try rewrite H'; repeat split; reflexivity.
Qed.

(** C2. When the dispatch state is Document at step 0 the resolver calls
    hintList with exactly one candidate, the open brace, whatever the
    options hold. *)
Theorem document_start_hint (cur : Cursor) (token : Token)
    (options : Options) (s : ParseState) :
  dispatchState token = Some s ->
  kind s = "Document" -> step s = 0 ->
  getVariablesHint hintList cur token options =
    Return (hintList cur token
              [{| text := "{"; type := None; description := None |}]).
Proof.
  intros Hd Hk Hs. unfold getVariablesHint. now rewrite Hd, Hk, Hs.
Qed.

(** C3. With a mapping in the options, when the dispatch state is Document
    at a step other than 0, or Variable at step 0, the resolver calls
    hintList with one candidate per entry of the mapping, in order: the
    name between double quotes (character 34) followed by a colon and a
    space, with the entry's type. *)
Theorem variable_name_hints (cur : Cursor) (token : Token)
    (options : Options) (s : ParseState) (v : JSObject GraphQLType) :
  dispatchState token = Some s ->
  variableToType options = Some v ->
  NoDup (keys v) ->
  (kind s = "Document" /\ step s <> 0) \/
  (kind s = "Variable" /\ step s = 0) ->
  getVariablesHint hintList cur token options =
    Return (hintList cur token
              (map (fun entry =>
                      {| text := String "034"%char
                                   (fst entry +:+ String "034"%char ": ");
                         type := Some (snd entry);
                         description := None |}) v)).
Proof.
  intros Hd Hv Hnd Hpos. unfold getVariablesHint. rewrite Hd, Hv.
  assert (String.eqb (kind s) "Document" && Z.eqb (step s) 0 = false
          /\ String.eqb (kind s) "Document" ||
             (String.eqb (kind s) "Variable" && Z.eqb (step s) 0) = true)
    as [-> ->].
  { destruct Hpos as [[-> Hs]|[-> ->]]; [|now split].
    apply Z.eqb_neq in Hs. now rewrite Hs. }
  do 2 f_equal. unfold variableCandidate.
  rewrite (map_get_keys v
             (fun k t => {| text := quoted k +:+ ": "; type := t;
                            description := None |}) Hnd).
  apply map_ext. intros [k t]. cbn [fst snd]. f_equal.
  unfold quoted, dquote.
  change (String "034"%char ((k +:+ String "034"%char EmptyString) +:+ ": ")
          = String "034"%char (k +:+ String "034"%char ": ")).
  now rewrite append_assoc.
Qed.

(** C4. When the dispatch state is ObjectValue, or ObjectField at step 0,
    and type recovery left an active field set, the resolver calls hintList
    with one candidate per field, in declaration order: the field's name
    between double quotes (character 34) followed by a colon and a space,
    with the field's type and description. *)
Theorem input_field_hints (cur : Cursor) (token : Token)
    (options : Options) (s : ParseState) (v : JSObject GraphQLType)
    (fs : JSObject GraphQLInputField) :
  dispatchState token = Some s ->
  variableToType options = Some v ->
  kind s = "ObjectValue" \/ (kind s = "ObjectField" /\ step s = 0) ->
  info_fields (getTypeInfo v (state token)) = Some fs ->
  NoDup (keys fs) ->
  getVariablesHint hintList cur token options =
    Return (hintList cur token
              (map (fun entry =>
                      match snd entry with
                      | mkInputField fname ftype fdescription =>
                          {| text := String "034"%char
                                       (fname +:+ String "034"%char ": ");
                             type := Some ftype;
                             description := fdescription |}
                      end) fs)).
Proof.
  intros Hd Hv Hpos Hfs Hnd. unfold getVariablesHint. rewrite Hd, Hv, Hfs.
  assert (String.eqb (kind s) "Document" = false
          /\ String.eqb (kind s) "Variable" = false
          /\ String.eqb (kind s) "ObjectValue" ||
             (String.eqb (kind s) "ObjectField" && Z.eqb (step s) 0) = true)
    as (-> & -> & ->).
  { destruct Hpos as [->|[-> ->]]; now repeat split. }
  change (mapM (fun fieldName => get fs fieldName) (keys fs))
    with (mapM (get fs) (keys fs)).
  rewrite (mapM_get_keys fs Hnd). do 2 f_equal.
  rewrite map_map. apply map_ext. intros [k [fname ftype fdescription]].
  unfold fieldCandidate. cbn [snd field_name field_type field_description].
  f_equal. unfold quoted, dquote.
  change (String "034"%char
            ((fname +:+ String "034"%char EmptyString) +:+ ": ")
          = String "034"%char (fname +:+ String "034"%char ": ")).
  now rewrite append_assoc.
Qed.

(** C5. At a value position the candidates follow the named form of the
    recovered type, the type under all its list and non-null wrappers: an
    input object gives the open brace alone; an enum gives one candidate
    per value in declaration order, the value's name between double quotes
    (character 34) with the enum type and the value's description; the
    boolean scalar gives true then false with their two descriptions. *)
Theorem input_value_hints (cur : Cursor) (token : Token)
    (options : Options) (s : ParseState) (v : JSObject GraphQLType)
    (t : GraphQLType) :
  dispatchState token = Some s ->
  variableToType options = Some v ->
  valuePosition s ->
  info_type (getTypeInfo v (state token)) = Some t ->
  (forall n fs, NamedForm t (GraphQLInputObjectType n fs) ->
     getVariablesHint hintList cur token options =
       Return (hintList cur token
                 [{| text := "{"; type := None; description := None |}]))
  /\ (forall n values, NamedForm t (GraphQLEnumType n values) ->
     getVariablesHint hintList cur token options =
       Return (hintList cur token
                 (map (fun value =>
                         {| text := String "034"%char
                                      (value_name value +:+
                                       String "034"%char EmptyString);
                            type := Some (GraphQLEnumType n values);
                            description := value_description value |})
                    values)))
  /\ (NamedForm t GraphQLBoolean ->
     getVariablesHint hintList cur token options =
       Return (hintList cur token
                 [ {| text := "true"; type := Some GraphQLBoolean;
                      description := Some "Not false." |};
                   {| text := "false"; type := Some GraphQLBoolean;
                      description := Some "Not true." |} ])).
Proof.
  intros Hd Hv Hpos Ht.
  assert (getVariablesHint hintList cur token options =
          valueHints hintList cur token (getTypeInfo v (state token))
            (kind s) (step s)) as ->.
  { unfold getVariablesHint. rewrite Hd, Hv.
    destruct (valuePosition_branches s Hpos) as (-> & -> & -> & ->).
    reflexivity. }
  unfold valueHints. rewrite (isValuePosition_spec s Hpos), Ht. cbn.
  split; [|split].
  - intros n fs Hnamed. now rewrite (unwrapType_NamedForm _ _ Hnamed).
  - intros n values Hnamed. rewrite (unwrapType_NamedForm _ _ Hnamed).
    now rewrite mapM_lookup_arrayKeys.
  - intros Hnamed. now rewrite (unwrapType_NamedForm _ _ Hnamed).
Qed.

(** C7. Without a mapping in the options the resolver returns nothing for
    every dispatch state but Document at step 0, where it still calls
    hintList with the open brace. *)
Theorem missing_variableToType (cur : Cursor) (token : Token)
    (options : Options) (s : ParseState) :
  variableToType options = None ->
  dispatchState token = Some s ->
  (kind s = "Document" /\ step s = 0 ->
     getVariablesHint hintList cur token options =
       Return (hintList cur token
                 [{| text := "{"; type := None; description := None |}]))
  /\ (~ (kind s = "Document" /\ step s = 0) ->
     getVariablesHint hintList cur token options = Return None).
Proof.
  intros Hv Hd. unfold getVariablesHint. rewrite Hd, Hv. split.
  - intros [-> ->]. reflexivity.
  - intros Hnot.
    destruct (String.eqb_spec (kind s) "Document") as [Hk|_];
      [|reflexivity].
    destruct (Z.eqb_spec (step s) 0) as [Hs|_]; [|reflexivity].
    exfalso. now apply Hnot.
Qed.

(** An Invalid state leaves the recovered types as its prior state has
    them. *)
Lemma getTypeInfo_invalid (v : JSObject GraphQLType) (s p : ParseState) :
  kind s = "Invalid" -> prevState s = Some p ->
  getTypeInfo v s = getTypeInfo v p.
Proof.
  destruct s as [k st n prev]. cbn. intros -> ->.
  unfold getTypeInfo. cbn [forEachState]. reflexivity.
Qed.

Lemma valueHints_returns (cur : Cursor) (token : Token) (typeInfo : TypeInfo)
    (k : string) (st : Z) :
  exists r, valueHints hintList cur token typeInfo k st = Return r.
Proof.
  unfold valueHints. destruct (isValuePosition k st); [|eauto].
  destruct (getNamedType (info_type typeInfo)) as [[|n|n values|n fs|t|t]|];
    cbn; eauto.
  rewrite mapM_lookup_arrayKeys. eauto.
Qed.

Lemma getVariablesHint_returns (cur : Cursor) (token : Token)
    (options : Options) (s : ParseState) :
  dispatchState token = Some s ->
  exists r, getVariablesHint hintList cur token options = Return r.
Proof.
  intros Hd. unfold getVariablesHint. rewrite Hd.
  destruct (String.eqb (kind s) "Document" && Z.eqb (step s) 0); [eauto|].
  destruct (variableToType options) as [v|]; [|eauto].
  destruct (String.eqb (kind s) "Document" ||
            String.eqb (kind s) "Variable" && Z.eqb (step s) 0); [eauto|].
  destruct (String.eqb (kind s) "ObjectValue" ||
            String.eqb (kind s) "ObjectField" && Z.eqb (step s) 0);
    [|apply valueHints_returns].
  destruct (info_fields (getTypeInfo v (state token))) as [fs|];
    [|apply valueHints_returns].
  change (mapM (fun fieldName => get fs fieldName) (keys fs))
    with (mapM (get fs) (keys fs)).
  destruct (mapM_get_keys_is_Some fs) as [inputFields ->]. eauto.
Qed.

(** The result of the resolver is [hintList] applied to candidates that
    do not depend on [hintList]. *)
Lemma getVariablesHint_callHintList (cur : Cursor) (token : Token)
    (options : Options) :
  getVariablesHint hintList cur token options =
  callHintList hintList cur token
    (getVariablesHint candidatesOnly cur token options).
Proof.
  assert (forall typeInfo k st,
            valueHints hintList cur token typeInfo k st =
            callHintList hintList cur token
              (valueHints candidatesOnly cur token typeInfo k st)) as Hvalue.
  { intros typeInfo k st. unfold valueHints.
    destruct (isValuePosition k st); [|reflexivity].
    destruct (getNamedType (info_type typeInfo))
      as [[|n|n values|n fs|t|t]|]; try reflexivity.
    now destruct (mapM _ _). }
  unfold getVariablesHint.
  destruct (dispatchState token) as [s|]; [|reflexivity].
  destruct (String.eqb (kind s) "Document" && Z.eqb (step s) 0);
    [reflexivity|].
  destruct (variableToType options) as [v|]; [|reflexivity].
  destruct (String.eqb (kind s) "Document" ||
            String.eqb (kind s) "Variable" && Z.eqb (step s) 0);
    [reflexivity|].
  destruct (String.eqb (kind s) "ObjectValue" ||
            String.eqb (kind s) "ObjectField" && Z.eqb (step s) 0);
    [|apply Hvalue].
  destruct (info_fields (getTypeInfo v (state token))) as [fs|];
    [|apply Hvalue].
  now destruct (mapM _ _).
Qed.

(** C6, as the code has it. When the innermost state is Invalid and its
    prior state is not itself Invalid, the resolver dispatches on the prior
    state; the candidates it hands to hintList are those for a token whose
    state is that prior state, and so is its result for a hintList that
    does not read the token's state; when the prior state is Document at
    step 0 the call is the open brace alone. *)
Theorem invalid_substitution (cur : Cursor) (token : Token)
    (options : Options) (p : ParseState) :
  kind (state token) = "Invalid" ->
  prevState (state token) = Some p ->
  kind p <> "Invalid" ->
  dispatchState token = Some p
  /\ getVariablesHint candidatesOnly cur token options =
     getVariablesHint candidatesOnly cur (withState token p) options
  /\ ((forall c t s l, hintList c (withState t s) l = hintList c t l) ->
      getVariablesHint hintList cur token options =
      getVariablesHint hintList cur (withState token p) options)
  /\ (kind p = "Document" -> step p = 0 ->
      getVariablesHint hintList cur token options =
        Return (hintList cur token
                  [{| text := "{"; type := None; description := None |}])).
Proof.
  intros Hk Hp Hnp.
  assert (dispatchState token = Some p) as Hd.
  { unfold dispatchState. now rewrite Hk, Hp. }
  assert (dispatchState (withState token p) = Some p) as Hd'.
  { unfold dispatchState. cbn. apply String.eqb_neq in Hnp. now rewrite Hnp. }
  assert (getVariablesHint candidatesOnly cur token options =
          getVariablesHint candidatesOnly cur (withState token p) options)
    as Hsame.
  { unfold getVariablesHint, valueHints, candidatesOnly. rewrite Hd, Hd'.
    change (state (withState token p)) with p.
    destruct (variableToType options) as [v|]; [|reflexivity].
    now rewrite (getTypeInfo_invalid v _ _ Hk Hp). }
  split; [exact Hd|]. split; [exact Hsame|]. split.
  - intros Hh.
    rewrite (getVariablesHint_callHintList cur token),
      (getVariablesHint_callHintList cur (withState token p)), Hsame.
    unfold callHintList.
    destruct (getVariablesHint candidatesOnly cur (withState token p)
                options) as [[l|]|]; try reflexivity.
    now rewrite Hh.
  - intros Hkp Hsp. unfold getVariablesHint. now rewrite Hd, Hkp, Hsp.
Qed.

(** A Variable whose name the mapping lacks, then an ObjectValue state:
    no fields, and nothing returned. *)
Lemma absent_variable_object (cur : Cursor) (token : Token)
    (options : Options) (v : JSObject GraphQLType) (x : string)
    (st1 st2 : Z) (n2 : option string) (ctx : option ParseState) :
  get v x = None ->
  info_fields
    (getTypeInfo v
       (mkState "ObjectValue" st2 n2
          (Some (mkState "Variable" st1 (Some x) ctx)))) = None
  /\ (state token =
        mkState "ObjectValue" st2 n2
          (Some (mkState "Variable" st1 (Some x) ctx)) ->
      variableToType options = Some v ->
      getVariablesHint hintList cur token options = Return None).
Proof.
  intros Hget.
  assert (info_fields
            (getTypeInfo v
               (mkState "ObjectValue" st2 n2
                  (Some (mkState "Variable" st1 (Some x) ctx)))) = None)
    as Hnone.
  { unfold getTypeInfo. destruct ctx as [outer|]; cbn [forEachState];
      unfold visitState at 1 2; cbn; now rewrite Hget. }
  split; [exact Hnone|].
  intros Hst Hv. unfold getVariablesHint, dispatchState.
  rewrite Hv, Hst. cbn [kind step]. cbn - [getTypeInfo].
  now rewrite Hnone.
Qed.

(** C8. On a chain whose innermost state, when it is Invalid, records its
    prior state (as the parser does for every Invalid state), the resolver
    never raises: it returns a result or nothing. Type recovery is total,
    and every unresolved lookup leaves no type or no fields: a variable
    name that is no key of the mapping, a field name that is no key of the
    active fields, a type that is neither a list nor a non-null list under
    a ListValue state, a type whose named form is no input object under an
    ObjectValue state. A Variable whose name is absent from the mapping
    followed by an ObjectValue state leaves no fields, and the resolver
    returns nothing there. *)
Theorem resolution_never_raises (cur : Cursor) (token : Token)
    (options : Options) :
  (kind (state token) = "Invalid" -> prevState (state token) <> None) ->
  (exists r, getVariablesHint hintList cur token options = Return r)
  /\ (forall v info st x,
        kind st = "Variable" -> name st = Some x -> ~ In x (keys v) ->
        info_type (visitState v info st) = None)
  /\ (forall v info st y fs,
        kind st = "ObjectField" -> name st = Some y ->
        info_fields info = Some fs -> ~ In y (keys fs) ->
        info_type (visitState v info st) = None)
  /\ (forall v info st u,
        kind st = "ListValue" -> info_type info = Some u ->
        (forall e, u <> GraphQLList e) ->
        (forall e, u <> GraphQLNonNull (GraphQLList e)) ->
        info_type (visitState v info st) = None)
  /\ (forall v info st t u,
        kind st = "ObjectValue" -> info_type info = Some t ->
        NamedForm t u -> (forall n fs, u <> GraphQLInputObjectType n fs) ->
        info_fields (visitState v info st) = None)
  /\ (forall v x st1 st2 n2 ctx,
        ~ In x (keys v) ->
        info_fields
          (getTypeInfo v
             (mkState "ObjectValue" st2 n2
                (Some (mkState "Variable" st1 (Some x) ctx)))) = None
        /\ (state token =
              mkState "ObjectValue" st2 n2
                (Some (mkState "Variable" st1 (Some x) ctx)) ->
            variableToType options = Some v ->
            getVariablesHint hintList cur token options = Return None)).
Proof.
  intros Hprior.
  split; [|split; [|split; [|split; [|split]]]].
  - destruct (dispatchState token) as [s|] eqn:Hd.
    + exact (getVariablesHint_returns cur token options s Hd).
    + exfalso. unfold dispatchState in Hd.
      destruct (String.eqb_spec (kind (state token)) "Invalid") as [Hk|_];
        [|discriminate].
      now apply (Hprior Hk).
  - intros v info st x Hk Hn Hnot. unfold visitState. rewrite Hk, Hn. cbn.
    now apply get_absent.
  - intros v info st y fs Hk Hn Hfs Hnot. unfold visitState.
    rewrite Hk, Hn, Hfs. cbn. destruct (String.eqb y ""); [reflexivity|].
    now rewrite (get_absent _ _ Hnot).
  - intros v info st u Hk Hu Hlist Hnonnull. unfold visitState.
    rewrite Hk, Hu. cbn.
    destruct u as [|n|n vs|n fs|e|[|n|n vs|n fs|e|e]]; try reflexivity.
    + now destruct (Hlist e).
    + now destruct (Hnonnull e).
  - intros v info st t u Hk Ht Hnamed Hnot. unfold visitState.
    rewrite Hk, Ht. cbn. rewrite (unwrapType_NamedForm _ _ Hnamed).
    destruct u as [|n|n vs|n fs|e|e]; try reflexivity.
    now destruct (Hnot n fs).
  - intros v x st1 st2 n2 ctx Hnot.
    apply absent_variable_object. now apply get_absent.
Qed.

(** C10. When the innermost state and its prior state are both Invalid,
    the resolver dispatches on the prior state, which is still Invalid,
    and returns nothing: it does not go further up the chain. *)
Theorem double_invalid_no_hints (cur : Cursor) (token : Token)
    (options : Options) (p : ParseState) :
  kind (state token) = "Invalid" ->
  prevState (state token) = Some p ->
  kind p = "Invalid" ->
  dispatchState token = Some p
  /\ getVariablesHint hintList cur token options = Return None.
Proof.
  intros Hk Hp Hkp.
  assert (dispatchState token = Some p) as Hd.
  { unfold dispatchState. now rewrite Hk, Hp. }
  split; [exact Hd|].
  unfold getVariablesHint, valueHints. rewrite Hd, Hkp. cbn.
  now destruct (variableToType options).
Qed.

End ResolverProperties.

(** ** The resolver on a store and the resolver on values *)

Section StoreProperties.

Implicit Types (σ : Store) (l i : Loc).

Lemma bind_Return {A B : Type} (m : Run A) (f : A -> Run B) σ σ' (a : A) :
  m σ = Finished (Return a) σ' -> (m ≫= f) σ = f a σ'.
Proof. intros H. unfold mbind, Run_bind. now rewrite H. Qed.

Lemma load_Some σ l (o : StoreObject) :
  σ !! l = Some o -> load l σ = Finished (Return o) σ.
Proof. intros H. unfold load. now rewrite H. Qed.

Lemma readMap_Some σ l (v : JSObject GraphQLType) :
  σ !! l = Some (MapObject v) -> readMap l σ = Finished (Return v) σ.
Proof.
  intros H. unfold readMap. now rewrite (bind_Return _ _ _ _ _ (load_Some _ _ _ H)).
Qed.

Lemma readInfo_insert σ i (info : TypeInfo) :
  readInfo i (<[i:=infoObject info]> σ) =
  Finished (Return info) (<[i:=infoObject info]> σ).
Proof.
  unfold readInfo.
  rewrite (bind_Return _ _ _ _ _ (load_Some _ _ _ (lookup_insert_eq σ i _))).
  now destruct info.
Qed.

Lemma setType_insert σ i (info : TypeInfo) (t : option GraphQLType) :
  setType i t (<[i:=infoObject info]> σ) =
  Finished (Return tt)
    (<[i:=infoObject {| info_type := t; info_fields := info_fields info |}]> σ).
Proof.
  unfold setType, assign. rewrite lookup_insert_eq. cbn.
  now rewrite insert_insert_eq.
Qed.

Lemma setFields_insert σ i (info : TypeInfo)
    (f : option (JSObject GraphQLInputField)) :
  setFields i f (<[i:=infoObject info]> σ) =
  Finished (Return tt)
    (<[i:=infoObject {| info_type := info_type info; info_fields := f |}]> σ).
Proof.
  unfold setFields, assign. rewrite lookup_insert_eq. cbn.
  now rewrite insert_insert_eq.
Qed.

(** A location that holds an object is not a location that holds none. *)
Lemma lookup_insert_fresh σ l i (o o' : StoreObject) :
  σ !! i = None -> σ !! l = Some o -> <[i:=o']> σ !! l = Some o.
Proof.
  intros Hi Hl. rewrite lookup_insert_ne; [exact Hl|congruence].
Qed.

(** The callback on the store does to the [info] object what the callback
    on values does to [info], and touches nothing else. *)
Lemma visitStateS_spec σ lv i l (v : JSObject GraphQLType) (info : TypeInfo)
    (k : string) (st : Z) (n : option string) (prev : option Loc)
    (p : option ParseState) :
  σ !! i = None ->
  σ !! lv = Some (MapObject v) ->
  σ !! l = Some (StateObject k st n prev) ->
  visitStateS lv i l (<[i:=infoObject info]> σ) =
  Finished (Return tt)
    (<[i:=infoObject (visitState v info (mkState k st n p))]> σ).
Proof.
  intros Hi Hv Hl. unfold visitStateS, visitState. cbn [kind name].
  rewrite (bind_Return _ _ _ _ _
             (load_Some _ _ _ (lookup_insert_fresh _ _ _ _ _ Hi Hl))).
  destruct (String.eqb k "Variable").
  { rewrite (bind_Return _ _ _ _ _
               (readMap_Some _ _ _ (lookup_insert_fresh _ _ _ _ _ Hi Hv))).
    apply setType_insert. }
  destruct (String.eqb k "ListValue").
  { rewrite (bind_Return _ _ _ _ _ (readInfo_insert _ _ _)).
    apply setType_insert. }
  destruct (String.eqb k "ObjectValue").
  { rewrite (bind_Return _ _ _ _ _ (readInfo_insert _ _ _)).
    apply setFields_insert. }
  destruct (String.eqb k "ObjectField").
  { rewrite (bind_Return _ _ _ _ _ (readInfo_insert _ _ _)).
    apply setType_insert. }
  reflexivity.
Qed.

Lemma reprState_lookup σ l (s : ParseState) :
  reprState σ l s ->
  exists prev, σ !! l = Some (StateObject (kind s) (step s) (name s) prev) /\
    match prevState s, prev with
    | Some outer, Some p => reprState σ p outer
    | None, None => True
    | _, _ => False
    end.
Proof.
  destruct s as [k st n [outer|]]; cbn.
  - intros (p & Hl & Hp). exists (Some p). now split.
  - intros Hl. exists None. now split.
Qed.

Lemma reprState_weaken σ σ' l (s : ParseState) :
  (forall l' o, σ !! l' = Some o -> σ' !! l' = Some o) ->
  reprState σ l s -> reprState σ' l s.
Proof.
  intros Hsub. revert l.
  induction s as [k st n|k st n outer IH] using ParseState_chain_ind;
    intros l; cbn.
  - apply Hsub.
  - intros (p & Hl & Hp). exists p. split; [now apply Hsub|now apply IH].
Qed.

(** The walk of a chain held by the store ends, given fuel for each of its
    states, and leaves in the [info] object what the walk on values
    computes. *)
Lemma forEachStateS_spec σ lv i (v : JSObject GraphQLType) (s : ParseState) :
  σ !! i = None ->
  σ !! lv = Some (MapObject v) ->
  forall l (info : TypeInfo) (fuel : nat),
  reprState σ l s ->
  (length (stateChain s) <= fuel)%nat ->
  forEachStateS fuel l (visitStateS lv i) (<[i:=infoObject info]> σ) =
  Finished (Return tt)
    (<[i:=infoObject (forEachState s (visitState v) info)]> σ).
Proof.
  intros Hi Hv.
  induction s as [k st n|k st n outer IH] using ParseState_chain_ind;
    intros l info fuel Hrepr Hfuel; cbn in Hrepr.
  - destruct fuel as [|fuel]; [cbn in Hfuel; lia|]. cbn [forEachStateS].
    rewrite (bind_Return _ _ _ _ _
               (load_Some _ _ _ (lookup_insert_fresh _ _ _ _ _ Hi Hrepr))).
    now apply visitStateS_spec with (prev := None).
  - destruct Hrepr as (p & Hl & Hp).
    destruct fuel as [|fuel];
      [rewrite stateChain_unfold in Hfuel; cbn in Hfuel; lia|].
    rewrite stateChain_unfold in Hfuel. cbn in Hfuel.
    cbn [forEachStateS forEachState].
    rewrite (bind_Return _ _ _ _ _
               (load_Some _ _ _ (lookup_insert_fresh _ _ _ _ _ Hi Hl))).
    rewrite (bind_Return _ _ _ _ _ (IH p info fuel Hp ltac:(lia))).
    now apply visitStateS_spec with (prev := Some p).
Qed.

(** A chain with a cycle is walked until the fuel is spent, whatever the
    fuel: the walk does not end. *)
Lemma forEachStateS_cycle σ l (k : string) (st : Z) (n : option string)
    (fn : Loc -> Run unit) (fuel : nat) :
  σ !! l = Some (StateObject k st n (Some l)) ->
  forEachStateS fuel l fn σ = OutOfFuel.
Proof.
  intros Hl. induction fuel as [|fuel IH]; [reflexivity|].
  cbn [forEachStateS].
  rewrite (bind_Return _ _ _ _ _ (load_Some _ _ _ Hl)).
  unfold mbind, Run_bind. now rewrite IH.
Qed.

Lemma getTypeInfoS_spec σ lv l (v : JSObject GraphQLType) (s : ParseState)
    (fuel : nat) :
  σ !! lv = Some (MapObject v) ->
  reprState σ l s ->
  (length (stateChain s) <= fuel)%nat ->
  σ !! fresh (dom σ) = None /\
  getTypeInfoS fuel lv l σ =
    Finished (Return (fresh (dom σ)))
      (<[fresh (dom σ):=infoObject (getTypeInfo v s)]> σ).
Proof.
  intros Hv Hrepr Hfuel.
  assert (σ !! fresh (dom σ) = None) as Hi
    by apply not_elem_of_dom, is_fresh.
  split; [exact Hi|]. unfold getTypeInfoS.
  rewrite (bind_Return (alloc (InfoObject None None)) _ σ
             (<[fresh (dom σ):=
                  infoObject {| info_type := None; info_fields := None |}]> σ)
             (fresh (dom σ)) eq_refl).
  now rewrite (bind_Return _ _ _ _ _
                 (forEachStateS_spec σ lv _ v s Hi Hv l _ fuel Hrepr Hfuel)).
Qed.

Lemma valueHintsS_spec σ (cur : Cursor) (token : Token) (typeInfo : TypeInfo)
    (k : string) (st : Z) :
  valueHintsS typeInfo k st σ =
  Finished (valueHints candidatesOnly cur token typeInfo k st) σ.
Proof.
  unfold valueHintsS, valueHints, candidatesOnly.
  destruct (isValuePosition k st); [|reflexivity].
  destruct (getNamedType (info_type typeInfo))
    as [[|n|n values|n fs|t|t]|]; try reflexivity.
  now destruct (mapM _ _).
Qed.

(** Lines 62-136: the run on the store ends with the candidates the
    resolver on values hands to [hintList], in a store that still holds
    every object it held. *)
Lemma hintsForS_spec σ l (lv : option Loc) (cur : Cursor) (token : Token)
    (options : Options) (s0 : ParseState) (fuel : nat) :
  reprState σ l (state token) ->
  reprOptions σ lv options ->
  (length (stateChain (state token)) <= fuel)%nat ->
  dispatchState token = Some s0 ->
  exists σ',
    hintsForS fuel l lv (kind s0) (step s0) σ =
      Finished (getVariablesHint candidatesOnly cur token options) σ'
    /\ (forall l' o, σ !! l' = Some o -> σ' !! l' = Some o).
Proof.
  intros Hrepr Hopt Hfuel Hd.
  unfold hintsForS, getVariablesHint. rewrite Hd.
  destruct (String.eqb (kind s0) "Document" && Z.eqb (step s0) 0).
  { exists σ. now split. }
  unfold reprOptions in Hopt.
  destruct lv as [lv|], (variableToType options) as [v|];
    try contradiction.
  2: { exists σ. now split. }
  destruct (getTypeInfoS_spec σ lv l v _ fuel Hopt Hrepr Hfuel)
    as [Hi Hrun].
  exists (<[fresh (dom σ):=infoObject (getTypeInfo v (state token))]> σ).
  split; [|intros l' o Hl'; eapply lookup_insert_fresh; eassumption].
  rewrite (bind_Return _ _ _ _ _ Hrun).
  rewrite (bind_Return _ _ _ _ _ (readInfo_insert _ _ _)).
  destruct (String.eqb (kind s0) "Document" ||
            String.eqb (kind s0) "Variable" && Z.eqb (step s0) 0).
  { now rewrite (bind_Return _ _ _ _ _
                   (readMap_Some _ _ _
                      (lookup_insert_fresh _ _ _ _ _ Hi Hopt))). }
  destruct (String.eqb (kind s0) "ObjectValue" ||
            String.eqb (kind s0) "ObjectField" && Z.eqb (step s0) 0);
    [|apply valueHintsS_spec].
  destruct (info_fields (getTypeInfo v (state token))) as [fs|];
    [|apply valueHintsS_spec].
  now destruct (mapM _ _).
Qed.

Lemma getVariablesHintS_spec σ l (lv : option Loc) (cur : Cursor)
    (token : Token) (options : Options) (fuel : nat) :
  reprState σ l (state token) ->
  reprOptions σ lv options ->
  (length (stateChain (state token)) <= fuel)%nat ->
  exists σ',
    getVariablesHintS fuel l lv σ =
      Finished (getVariablesHint candidatesOnly cur token options) σ'
    /\ (forall l' o, σ !! l' = Some o -> σ' !! l' = Some o).
Proof.
  intros Hrepr Hopt Hfuel.
  destruct (reprState_lookup _ _ _ Hrepr) as (prev & Hl & Hprev).
  unfold getVariablesHintS.
  rewrite (bind_Return _ _ _ _ _ (load_Some _ _ _ Hl)).
  destruct (String.eqb (kind (state token)) "Invalid") eqn:Hinv.
  - destruct (prevState (state token)) as [outer|] eqn:Hout,
      prev as [p|]; try contradiction.
    + destruct (reprState_lookup _ _ _ Hprev) as (pp & Hp & _).
      rewrite (bind_Return _ _ _ _ _ (load_Some _ _ _ Hp)).
      apply hintsForS_spec; try assumption.
      unfold dispatchState. now rewrite Hinv.
    + exists σ. split; [|tauto].
      unfold getVariablesHint, dispatchState. now rewrite Hinv, Hout.
  - rewrite (bind_Return _ _ _ _ _ (load_Some _ _ _ Hl)).
    apply hintsForS_spec; try assumption.
    unfold dispatchState. now rewrite Hinv.
Qed.

Lemma reprOptions_weaken σ σ' (lv : option Loc) (options : Options) :
  (forall l' o, σ !! l' = Some o -> σ' !! l' = Some o) ->
  reprOptions σ lv options -> reprOptions σ' lv options.
Proof.
  intros Hsub. unfold reprOptions.
  destruct lv, (variableToType options); auto.
Qed.

End StoreProperties.

(** C9. For a store that holds the chain of the token's state and the
    mapping of the options, the run of the resolver ends with the
    candidates that the resolver on values computes from the mapping and
    the chain alone; every object of the store is still there, unchanged,
    so the chain and the mapping are as before; running it again gives the
    same result; and the caller's result is hintList applied to these
    candidates. The info object of type recovery is a new object whose
    contents are the function getTypeInfo of the mapping and the chain. *)
Theorem resolution_is_pure {R : Type}
    (hintList : Cursor -> Token -> list Candidate -> option R)
    (cur : Cursor) (token : Token) (options : Options)
    (σ : Store) (l : Loc) (lv : option Loc) (fuel : nat) :
  reprState σ l (state token) ->
  reprOptions σ lv options ->
  (length (stateChain (state token)) <= fuel)%nat ->
  exists σ' σ'',
    getVariablesHintS fuel l lv σ =
      Finished (getVariablesHint candidatesOnly cur token options) σ'
    /\ (forall l' o, σ !! l' = Some o -> σ' !! l' = Some o)
    /\ reprState σ' l (state token)
    /\ reprOptions σ' lv options
    /\ getVariablesHintS fuel l lv σ' =
         Finished (getVariablesHint candidatesOnly cur token options) σ''
    /\ getVariablesHint hintList cur token options =
         callHintList hintList cur token
           (getVariablesHint candidatesOnly cur token options)
    /\ (forall lm v, σ !! lm = Some (MapObject v) ->
         getTypeInfoS fuel lm l σ =
           Finished (Return (fresh (dom σ)))
             (<[fresh (dom σ):=infoObject (getTypeInfo v (state token))]> σ)
         /\ σ !! fresh (dom σ) = None).
Proof.
  intros Hrepr Hopt Hfuel.
  destruct (getVariablesHintS_spec σ l lv cur token options fuel
              Hrepr Hopt Hfuel) as (σ' & Hrun & Hsub).
  pose proof (reprState_weaken _ _ _ _ Hsub Hrepr) as Hrepr'.
  pose proof (reprOptions_weaken _ _ _ _ Hsub Hopt) as Hopt'.
  destruct (getVariablesHintS_spec σ' l lv cur token options fuel
              Hrepr' Hopt' Hfuel) as (σ'' & Hrun' & _).
  exists σ', σ''.
  split; [exact Hrun|]. split; [exact Hsub|]. split; [exact Hrepr'|].
  split; [exact Hopt'|]. split; [exact Hrun'|].
  split; [apply getVariablesHint_callHintList|].
  intros lm v Hlm.
  destruct (getTypeInfoS_spec σ lm l v _ fuel Hlm Hrepr Hfuel) as [Hi Hinfo].
  now split.
Qed.

(** ** The theorems on the example data *)

(** Through the wrappers of the example: field b of p, of type Point!;
    an item of tags, of type [Color!]!; the fields inside an item of a list
    of Point!. *)
Lemma getTypeInfo_rules_example :
  info_type (getTypeInfo wrappedVariables (fieldOfP "b"))
    = Some (GraphQLScalarType "String")
  /\ info_type (getTypeInfo wrappedVariables (itemOf "tags"))
    = Some (GraphQLNonNull ColorEnum)
  /\ info_fields
       (visitState wrappedVariables
          {| info_type := Some (GraphQLList (GraphQLNonNull PointInput));
             info_fields := None |}
          (mkState "ObjectValue" 1 None None))
    = Some [("a"%string, fieldA); ("b"%string, fieldB)]
  /\ getTypeInfo wrappedVariables (itemOf "tags")
    = {| info_type := Some (GraphQLNonNull ColorEnum); info_fields := None |}
  /\ getTypeInfo wrappedVariables objectOfP
    = {| info_type := Some (GraphQLNonNull PointInput);
         info_fields := Some [("a"%string, fieldA); ("b"%string, fieldB)] |}.
Proof.
  destruct (getTypeInfo_rules wrappedVariables (fieldOfP "b"))
    as (_ & _ & Hlist & Hobject & _ & Hchain).
  split; [|split; [|split; [|split; reflexivity]]].
  - apply (Hchain "p" "b" 2 1 2 None (Some documentOpen)
             (GraphQLNonNull PointInput) "Point"
             [("a"%string, fieldA); ("b"%string, fieldB)]
             "b" (GraphQLScalarType "String") None);
      [compute_done|left; reflexivity
      |apply NamedForm_nonNull, NamedForm_object|compute_done
      |right; left; reflexivity|discriminate].
  - destruct (Hlist (getTypeInfo wrappedVariables (variableValue "tags"))
                (itemOf "tags") eq_refl) as (_ & _ & Hnonnull & _).
    exact (Hnonnull (GraphQLNonNull ColorEnum) eq_refl).
  - destruct (Hobject
                {| info_type := Some (GraphQLList (GraphQLNonNull PointInput));
                   info_fields := None |}
                (mkState "ObjectValue" 1 None None) eq_refl)
      as (_ & Hfields & _).
    apply (Hfields (GraphQLList (GraphQLNonNull PointInput)) "Point"
             [("a"%string, fieldA); ("b"%string, fieldB)] eq_refl).
    apply NamedForm_list, NamedForm_nonNull, NamedForm_object.
Defined.

Lemma visitState_other_kind_example :
  visitState exampleVariables
    (getTypeInfo exampleVariables (fieldOfX "b"))
    (mkState "StringValue" 0 None (Some (fieldOfX "b")))
  = getTypeInfo exampleVariables (fieldOfX "b").
Proof.
  apply (visitState_other_kind exampleVariables
           (getTypeInfo exampleVariables (fieldOfX "b"))
           (mkState "StringValue" 0 None (Some (fieldOfX "b"))));
    discriminate.
Defined.

Lemma document_start_hint_example :
  getVariablesHint hintListAll exampleCursor (tokenIn documentStart) noOptions
  = Return (hintListAll exampleCursor (tokenIn documentStart)
              [{| text := "{"; type := None; description := None |}]).
Proof.
  apply (document_start_hint hintListAll exampleCursor (tokenIn documentStart)
           noOptions documentStart); reflexivity.
Defined.

Lemma variable_name_hints_example :
  getVariablesHint hintListAll exampleCursor (tokenIn variableStart)
    exampleOptions
  = Return (hintListAll exampleCursor (tokenIn variableStart)
              [ {| text := String "034"%char
                             (String "x"%char
                                (String "034"%char
                                   (String ":"%char
                                      (String " "%char EmptyString))));
                   type := Some PointInput;
                   description := None |};
                {| text := String "034"%char ("on" +:+ String "034"%char ": ");
                   type := Some (GraphQLNonNull GraphQLBoolean);
                   description := None |};
                {| text := String "034"%char
                             ("colors" +:+ String "034"%char ": ");
                   type := Some (GraphQLList ColorEnum);
                   description := None |} ])
  /\ candidateTexts
       (getVariablesHint candidatesOnly exampleCursor (tokenIn variableStart)
          exampleOptions)
     = [ String "034"%char ("x" +:+ String "034"%char ": ");
         String "034"%char ("on" +:+ String "034"%char ": ");
         String "034"%char ("colors" +:+ String "034"%char ": ") ].
Proof.
  split; [|reflexivity].
  apply (variable_name_hints hintListAll exampleCursor (tokenIn variableStart)
           exampleOptions variableStart exampleVariables);
    [reflexivity|reflexivity|compute_done|right; split; reflexivity].
Defined.

(** Fields a and b of p, of type Point!, in declared order. *)
Lemma input_field_hints_example :
  getVariablesHint hintListAll exampleCursor (tokenIn objectOfP)
    wrappedOptions
  = Return (hintListAll exampleCursor (tokenIn objectOfP)
              [ {| text := String "034"%char
                             (String "a"%char
                                (String "034"%char
                                   (String ":"%char
                                      (String " "%char EmptyString))));
                   type := Some GraphQLInt;
                   description := Some "first coordinate" |};
                {| text := String "034"%char ("b" +:+ String "034"%char ": ");
                   type := Some GraphQLString;
                   description := None |} ])
  /\ candidateTexts
       (getVariablesHint candidatesOnly exampleCursor (tokenIn objectOfP)
          wrappedOptions)
     = [ String "034"%char ("a" +:+ String "034"%char ": ");
         String "034"%char ("b" +:+ String "034"%char ": ") ].
Proof.
  split; [|reflexivity].
  apply (input_field_hints hintListAll exampleCursor (tokenIn objectOfP)
           wrappedOptions objectOfP wrappedVariables
           [("a"%string, fieldA); ("b"%string, fieldB)]);
    [reflexivity|reflexivity|left; reflexivity|reflexivity|compute_done].
Defined.

(** An item of tags, of type [Color!]!: the values RED, GREEN and BLUE of
    Color in declared order. The value of on, of type Boolean!: true, then
    false. *)
Lemma input_value_hints_example :
  getVariablesHint hintListAll exampleCursor (tokenIn (itemOf "tags"))
    wrappedOptions
  = Return (hintListAll exampleCursor (tokenIn (itemOf "tags"))
              [ {| text := String "034"%char
                             (String "R"%char
                                (String "E"%char
                                   (String "D"%char
                                      (String "034"%char EmptyString))));
                   type := Some ColorEnum;
                   description := Some "warm" |};
                {| text := String "034"%char
                             ("GREEN" +:+ String "034"%char EmptyString);
                   type := Some ColorEnum;
                   description := None |};
                {| text := String "034"%char
                             ("BLUE" +:+ String "034"%char EmptyString);
                   type := Some ColorEnum;
                   description := None |} ])
  /\ getVariablesHint hintListAll exampleCursor (tokenIn (variableValue "on"))
       exampleOptions
     = Return (hintListAll exampleCursor (tokenIn (variableValue "on"))
                 [ {| text := "true"; type := Some GraphQLBoolean;
                      description := Some "Not false." |};
                   {| text := "false"; type := Some GraphQLBoolean;
                      description := Some "Not true." |} ])
  /\ candidateTexts
       (getVariablesHint candidatesOnly exampleCursor
          (tokenIn (itemOf "tags")) wrappedOptions)
     = [ String "034"%char ("RED" +:+ String "034"%char EmptyString);
         String "034"%char ("GREEN" +:+ String "034"%char EmptyString);
         String "034"%char ("BLUE" +:+ String "034"%char EmptyString) ]
  /\ candidateTexts
       (getVariablesHint candidatesOnly exampleCursor
          (tokenIn (itemOf "flags")) wrappedOptions)
     = [ "true"%string; "false"%string ].
Proof.
  split; [|split; [|split; reflexivity]].
  - destruct (input_value_hints hintListAll exampleCursor
                (tokenIn (itemOf "tags")) wrappedOptions (itemOf "tags")
                wrappedVariables (GraphQLNonNull ColorEnum)
                eq_refl eq_refl
                (or_intror (or_intror (or_intror (or_intror
                   (or_introl (conj eq_refl eq_refl))))))
                eq_refl)
      as (_ & Henum & _).
    apply (Henum "Color"
             [ mkEnumValue "RED" (Some "warm"); mkEnumValue "GREEN" None;
               mkEnumValue "BLUE" None ]).
    apply NamedForm_nonNull, NamedForm_enum.
  - destruct (input_value_hints hintListAll exampleCursor
                (tokenIn (variableValue "on")) exampleOptions
                (variableValue "on") exampleVariables
                (GraphQLNonNull GraphQLBoolean)
                eq_refl eq_refl
                (or_intror (or_intror (or_intror (or_intror (or_intror
                   (or_intror (conj eq_refl eq_refl)))))))
                eq_refl)
      as (_ & _ & Hboolean).
    apply Hboolean. apply NamedForm_nonNull, NamedForm_boolean.
Defined.

Lemma invalid_substitution_example :
  dispatchState (tokenIn (invalidOver documentStart)) = Some documentStart
  /\ getVariablesHint candidatesOnly exampleCursor
       (tokenIn (invalidOver documentStart)) exampleOptions =
     getVariablesHint candidatesOnly exampleCursor
       (withState (tokenIn (invalidOver documentStart)) documentStart)
       exampleOptions
  /\ ((forall c t s l, hintListAll c (withState t s) l = hintListAll c t l) ->
      getVariablesHint hintListAll exampleCursor
        (tokenIn (invalidOver documentStart)) exampleOptions =
      getVariablesHint hintListAll exampleCursor
        (withState (tokenIn (invalidOver documentStart)) documentStart)
        exampleOptions)
  /\ (kind documentStart = "Document" -> step documentStart = 0 ->
      getVariablesHint hintListAll exampleCursor
        (tokenIn (invalidOver documentStart)) exampleOptions =
      Return (hintListAll exampleCursor (tokenIn (invalidOver documentStart))
                [{| text := "{"; type := None; description := None |}])).
Proof.
  apply (invalid_substitution hintListAll exampleCursor
           (tokenIn (invalidOver documentStart)) exampleOptions documentStart);
    [reflexivity|reflexivity|discriminate].
Defined.

(** C6 as stated fails when the prior state is itself Invalid: resolving
    with the prior state as the innermost state substitutes once more and
    reaches the Document state, resolving the token itself does not. The
    candidates handed to hintList differ, and so do the results for a
    hintList that does not read the token's state. *)
Lemma invalid_substitution_counterexample :
  kind (state (tokenIn (invalidOver (invalidOver documentStart)))) = "Invalid"
  /\ prevState (state (tokenIn (invalidOver (invalidOver documentStart))))
     = Some (invalidOver documentStart)
  /\ getVariablesHint candidatesOnly exampleCursor
       (tokenIn (invalidOver (invalidOver documentStart))) exampleOptions
     = Return None
  /\ getVariablesHint candidatesOnly exampleCursor
       (withState (tokenIn (invalidOver (invalidOver documentStart)))
          (invalidOver documentStart)) exampleOptions
     = Return (Some [{| text := "{"; type := None; description := None |}])
  /\ (forall c t s l, hintListAll c (withState t s) l = hintListAll c t l)
  /\ getVariablesHint hintListAll exampleCursor
       (tokenIn (invalidOver (invalidOver documentStart))) exampleOptions
     <> getVariablesHint hintListAll exampleCursor
          (withState (tokenIn (invalidOver (invalidOver documentStart)))
             (invalidOver documentStart)) exampleOptions.
Proof.
  split; [reflexivity|]. split; [reflexivity|]. split; [reflexivity|].
  split; [reflexivity|]. split; [reflexivity|]. discriminate.
Qed.

Lemma missing_variableToType_example :
  getVariablesHint hintListAll exampleCursor (tokenIn variableStart) noOptions
  = Return None.
Proof.
  apply (missing_variableToType hintListAll exampleCursor
           (tokenIn variableStart) noOptions variableStart eq_refl eq_refl).
  intros [Hk _]. discriminate Hk.
Defined.

(** An Invalid state over an object under a variable the mapping lacks:
    the resolver returns; the object has no fields. *)
Lemma resolution_never_raises_example :
  (exists r,
     getVariablesHint hintListAll exampleCursor
       (tokenIn (invalidOver
                   (mkState "ObjectValue" 1 None
                      (Some (variableValue "y")))))
       exampleOptions = Return r)
  /\ info_fields
       (getTypeInfo exampleVariables
          (mkState "ObjectValue" 1 None (Some (variableValue "y")))) = None.
Proof.
  destruct (resolution_never_raises hintListAll exampleCursor
              (tokenIn (invalidOver
                          (mkState "ObjectValue" 1 None
                             (Some (variableValue "y")))))
              exampleOptions)
    as (Hreturns & _ & _ & _ & _ & Habsent).
  - intros _. discriminate.
  - split; [exact Hreturns|].
    apply (Habsent exampleVariables "y" 2 1 None (Some documentOpen)).
    compute_done.
Defined.

Lemma double_invalid_no_hints_example :
  dispatchState (tokenIn (invalidOver (invalidOver documentStart)))
  = Some (invalidOver documentStart)
  /\ getVariablesHint hintListAll exampleCursor
       (tokenIn (invalidOver (invalidOver documentStart))) exampleOptions
     = Return None.
Proof.
  apply (double_invalid_no_hints hintListAll exampleCursor
           (tokenIn (invalidOver (invalidOver documentStart))) exampleOptions
           (invalidOver documentStart)); reflexivity.
Defined.

Lemma exampleStore_holds_chain :
  reprState exampleStore 3%positive objectOfX.
Proof.
  cbn. exists 2%positive. split; [reflexivity|].
  exists 1%positive. split; reflexivity.
Defined.

Lemma resolution_is_pure_example :
  exists σ' σ'',
    getVariablesHintS 3 3%positive (Some 4%positive) exampleStore =
      Finished (getVariablesHint candidatesOnly exampleCursor
                  (tokenIn objectOfX) exampleOptions) σ'
    /\ (forall l' o, exampleStore !! l' = Some o -> σ' !! l' = Some o)
    /\ reprState σ' 3%positive objectOfX
    /\ reprOptions σ' (Some 4%positive) exampleOptions
    /\ getVariablesHintS 3 3%positive (Some 4%positive) σ' =
         Finished (getVariablesHint candidatesOnly exampleCursor
                     (tokenIn objectOfX) exampleOptions) σ''
    /\ getVariablesHint hintListAll exampleCursor (tokenIn objectOfX)
         exampleOptions =
         callHintList hintListAll exampleCursor (tokenIn objectOfX)
           (getVariablesHint candidatesOnly exampleCursor (tokenIn objectOfX)
              exampleOptions)
    /\ (forall lm v, exampleStore !! lm = Some (MapObject v) ->
         getTypeInfoS 3 lm 3%positive exampleStore =
           Finished (Return (fresh (dom exampleStore)))
             (<[fresh (dom exampleStore):=
                  infoObject (getTypeInfo v objectOfX)]> exampleStore)
         /\ exampleStore !! fresh (dom exampleStore) = None).
Proof.
  apply (resolution_is_pure hintListAll exampleCursor (tokenIn objectOfX)
           exampleOptions exampleStore 3%positive (Some 4%positive) 3);
    [exact exampleStore_holds_chain|reflexivity|cbn; lia].
Defined.

(** * Further properties *)

(** ** Type recovery along a chain *)

Lemma visitState_inert (v : JSObject GraphQLType) (info : TypeInfo)
    (st : ParseState) :
  inertKind (kind st) = true -> visitState v info st = info.
Proof.
  unfold inertKind, visitState. intros H.
  apply negb_true_iff in H.
  repeat (apply orb_false_iff in H; destruct H as [H ?]).
  now rewrite H, H0, H1, H2.
Qed.

Lemma getTypeInfo_step (v : JSObject GraphQLType) (k : string) (st : Z)
    (n : option string) (s : ParseState) :
  getTypeInfo v (mkState k st n (Some s)) =
  visitState v (getTypeInfo v s) (mkState k st n (Some s)).
Proof. reflexivity. Qed.

Lemma fold_left_skip {A B : Type} (f : A -> B -> A) (keep : B -> bool)
    (l : list B) :
  (forall a x, keep x = false -> f a x = a) ->
  forall a, fold_left f (List.filter keep l) a = fold_left f l a.
Proof.
  intros Hskip. induction l as [|x l IH]; intros a; [reflexivity|].
  cbn. destruct (keep x) eqn:Hx; cbn.
  - apply IH.
  - rewrite (Hskip a x Hx). apply IH.
Qed.

(** X1. Type recovery reads only the states of kind Variable, ListValue,
    ObjectValue and ObjectField: dropping every other state from the chain,
    wherever it stands, gives the same type and fields. *)
Theorem getTypeInfo_skips_inert_states (v : JSObject GraphQLType)
    (s : ParseState) :
  getTypeInfo v s =
  fold_left (visitState v)
    (List.filter (fun st => negb (inertKind (kind st))) (rev (stateChain s)))
    {| info_type := None; info_fields := None |}.
Proof.
  unfold getTypeInfo. rewrite forEachState_fold. symmetry.
  apply fold_left_skip. intros info st Hst.
  apply visitState_inert. now apply negb_false_iff in Hst.
Qed.

Lemma insideObject_info (v : JSObject GraphQLType) (s s' : ParseState) :
  insideObject s s' ->
  getTypeInfo v s' =
  {| info_type := info_type (getTypeInfo v s);
     info_fields := fieldsOf (info_type (getTypeInfo v s)) |}.
Proof.
  induction 1 as [st n|s' k st n _ IH Hk].
  - rewrite getTypeInfo_step. reflexivity.
  - rewrite getTypeInfo_step, visitState_inert by exact Hk. exact IH.
Qed.

Lemma typeAtPath_snoc (t : option GraphQLType) (path : list PathStep)
    (step : PathStep) :
  typeAtPath t (path ++ [step]) = typeStep (typeAtPath t path) step.
Proof. unfold typeAtPath. now rewrite fold_left_app. Qed.

Lemma getTypeInfo_variable (v : JSObject GraphQLType) (base : ParseState) :
  kind base = "Variable" ->
  info_type (getTypeInfo v base) = get v (propertyKey (name base)).
Proof.
  destruct base as [k st n [outer|]]; cbn [kind name]; intros ->;
    reflexivity.
Qed.

(** X2. Below a Variable state, type recovery follows the access path of
    the chain: one list level per ListValue state, one field of the named
    input object per ObjectValue and ObjectField pair, whatever stands
    above the Variable state and whatever inert states lie between. Inside
    an object entered at the end of the path, the active fields are the
    fields of the type at the path. *)
Theorem getTypeInfo_follows_path (v : JSObject GraphQLType)
    (base s : ParseState) (path : list PathStep) :
  kind base = "Variable" ->
  descends base s path ->
  info_type (getTypeInfo v s) =
    typeAtPath (get v (propertyKey (name base))) path
  /\ (forall s', insideObject s s' ->
        info_fields (getTypeInfo v s') =
          fieldsOf (typeAtPath (get v (propertyKey (name base))) path)).
Proof.
  intros Hbase Hdesc.
  assert (info_type (getTypeInfo v s) =
          typeAtPath (get v (propertyKey (name base))) path) as Htype.
  { induction Hdesc as [|s path k st n _ IH Hk|s path st n _ IH
                        |s path st n _ IH|s s' path st y _ IH Hin Hy].
    - now apply getTypeInfo_variable.
    - rewrite getTypeInfo_step, visitState_inert by exact Hk. exact IH.
    - rewrite getTypeInfo_step. exact IH.
    - rewrite getTypeInfo_step, typeAtPath_snoc, <- IH. reflexivity.
    - rewrite getTypeInfo_step, typeAtPath_snoc, <- IH.
      rewrite (insideObject_info v s s' Hin).
      unfold visitState. cbn.
      apply String.eqb_neq in Hy. rewrite Hy.
      destruct (fieldsOf (info_type (getTypeInfo v s))) as [fs|];
        [|reflexivity].
      now destruct (get fs y). }
  split; [exact Htype|].
  intros s' Hin. rewrite (insideObject_info v s s' Hin). cbn.
  now rewrite Htype.
Qed.

(** ** Candidate generation: when nothing is offered, and what is read *)

Lemma isValuePosition_true (s : ParseState) :
  isValuePosition (kind s) (step s) = true -> valuePosition s.
Proof.
  unfold isValuePosition, valuePosition. intros H.
  repeat (apply orb_true_iff in H; destruct H as [H|H]);
    repeat (apply andb_true_iff in H; destruct H as [H ?]);
    repeat match goal with
           | Hk : String.eqb _ _ = true |- _ => apply String.eqb_eq in Hk
           | Hz : Z.eqb _ _ = true |- _ => apply Z.eqb_eq in Hz
           end; tauto.
Qed.

Lemma append_length (s t : string) :
  String.length (s +:+ t) = (String.length s + String.length t)%nat.
Proof.
  induction s as [|a s IH]; [reflexivity|].
  change (String a s +:+ t) with (String a (s +:+ t)).
  cbn [String.length]. now rewrite IH.
Qed.

Lemma append_inv_tail (s1 s2 t : string) :
  s1 +:+ t = s2 +:+ t -> s1 = s2.
Proof.
  revert s2. induction s1 as [|a s1 IH]; intros [|b s2] H.
  - reflexivity.
  - apply (f_equal String.length) in H. rewrite !append_length in H.
    cbn [String.length] in H. lia.
  - apply (f_equal String.length) in H. rewrite !append_length in H.
    cbn [String.length] in H. lia.
  - change (String a (s1 +:+ t) = String b (s2 +:+ t)) in H.
    injection H as -> H. f_equal. now apply IH.
Qed.

(** The text of a name candidate determines the name. *)
Lemma nameText_inj (a b : string) :
  quoted a +:+ ": " = quoted b +:+ ": " -> a = b.
Proof.
  intros H. apply append_inv_tail in H. unfold quoted in H.
  apply (inj (String.app dquote)) in H.
  now apply append_inv_tail in H.
Qed.

Section FurtherResolverProperties.

Context {R : Type}.

Variable hintList : Cursor -> Token -> list Candidate -> option R.

(** X3. Inside an object, or at the start of a field name, with no active
    field set (the enclosing type is unknown or no input object) the
    resolver returns nothing: the value hints below never apply there. *)
Theorem no_fields_no_hints (cur : Cursor) (token : Token)
    (options : Options) (s : ParseState) (v : JSObject GraphQLType) :
  dispatchState token = Some s ->
  variableToType options = Some v ->
  kind s = "ObjectValue" \/ (kind s = "ObjectField" /\ step s = 0) ->
  info_fields (getTypeInfo v (state token)) = None ->
  getVariablesHint hintList cur token options = Return None.
Proof.
  intros Hd Hv Hpos Hnone. unfold getVariablesHint, valueHints.
  rewrite Hd, Hv, Hnone.
  destruct Hpos as [->|[-> ->]]; reflexivity.
Qed.

(** X4. At a value position whose recovered type is missing, or names a
    scalar that is not the Boolean scalar itself, the resolver returns
    nothing. *)
Theorem scalar_value_no_hints (cur : Cursor) (token : Token)
    (options : Options) (s : ParseState) (v : JSObject GraphQLType) :
  dispatchState token = Some s ->
  variableToType options = Some v ->
  valuePosition s ->
  getNamedType (info_type (getTypeInfo v (state token))) = None \/
  (exists n,
     getNamedType (info_type (getTypeInfo v (state token))) =
       Some (GraphQLScalarType n)) ->
  getVariablesHint hintList cur token options = Return None.
Proof.
  intros Hd Hv Hpos Hnamed. unfold getVariablesHint. rewrite Hd, Hv.
  destruct (valuePosition_branches s Hpos) as (-> & -> & -> & ->).
  cbn. unfold valueHints. rewrite (isValuePosition_spec s Hpos).
  destruct Hnamed as [->|(n & ->)]; reflexivity.
Qed.

(** X5. A dispatch state that is neither Document, nor Variable at step 0,
    nor ObjectValue, nor ObjectField at step 0, nor a value position gets
    nothing, with or without a mapping: no other state is hinted. *)
Theorem unmatched_state_no_hints (cur : Cursor) (token : Token)
    (options : Options) (s : ParseState) :
  dispatchState token = Some s ->
  kind s <> "Document" ->
  ~ (kind s = "Variable" /\ step s = 0) ->
  kind s <> "ObjectValue" ->
  ~ (kind s = "ObjectField" /\ step s = 0) ->
  ~ valuePosition s ->
  getVariablesHint hintList cur token options = Return None.
Proof.
  intros Hd Hdoc Hvar Hobj Hfield Hval.
  unfold getVariablesHint, valueHints. rewrite Hd.
  apply String.eqb_neq in Hdoc, Hobj. rewrite Hdoc, Hobj. cbn.
  destruct (variableToType options) as [v|]; [|reflexivity].
  assert (String.eqb (kind s) "Variable" && Z.eqb (step s) 0 = false) as ->.
  { apply andb_false_iff.
    destruct (String.eqb_spec (kind s) "Variable") as [Hk|]; [|now left].
    destruct (Z.eqb_spec (step s) 0) as [Hs|]; [|now right].
    now destruct Hvar. }
  assert (String.eqb (kind s) "ObjectField" && Z.eqb (step s) 0 = false)
    as ->.
  { apply andb_false_iff.
    destruct (String.eqb_spec (kind s) "ObjectField") as [Hk|]; [|now left].
    destruct (Z.eqb_spec (step s) 0) as [Hs|]; [|now right].
    now destruct Hfield. }
  destruct (isValuePosition (kind s) (step s)) eqn:Hp; [|reflexivity].
  now destruct (Hval (isValuePosition_true s Hp)).
Qed.

(** X6. At the start of a field name the candidates are those of the
    enclosing object, whatever name the field state holds: the result is
    hintList, on the token itself, of the candidates for the ObjectValue
    state above. *)
Theorem field_name_hints_ignore_typed_name (cur : Cursor) (token : Token)
    (options : Options) (p : ParseState) (n : option string) :
  state token = mkState "ObjectField" 0 n (Some p) ->
  kind p = "ObjectValue" ->
  getVariablesHint hintList cur token options =
  callHintList hintList cur token
    (getVariablesHint candidatesOnly cur (withState token p) options).
Proof.
  intros Hst Hp. rewrite getVariablesHint_callHintList. f_equal.
  unfold getVariablesHint, dispatchState, valueHints, candidatesOnly.
  change (state (withState token p)) with p.
  rewrite Hst. cbn - [getTypeInfo]. rewrite Hp. cbn - [getTypeInfo].
  rewrite !Hp. cbn - [getTypeInfo].
  destruct (variableToType options) as [v|]; [|reflexivity].
  rewrite getTypeInfo_step.
  assert (info_fields
            (visitState v (getTypeInfo v p)
               (mkState "ObjectField" 0 n (Some p))) =
          info_fields (getTypeInfo v p)) as -> by reflexivity.
  destruct (info_fields (getTypeInfo v p)) as [fs|]; reflexivity.
Qed.

(** X7. The resolver reads the token's state and the options only: the
    cursor and the rest of the token reach hintList and nothing else. Its
    result is hintList, on its own cursor and token, of candidates that are
    the same for every cursor and every token in that state. *)
Theorem hints_read_state_and_options_only (cur cur' : Cursor)
    (token token' : Token) (options : Options) :
  state token = state token' ->
  getVariablesHint hintList cur token options =
  callHintList hintList cur token
    (getVariablesHint candidatesOnly cur' token' options).
Proof.
  intros Hst. rewrite getVariablesHint_callHintList. f_equal.
  unfold getVariablesHint, dispatchState, valueHints, candidatesOnly.
  now rewrite Hst.
Qed.

(** X8. With a mapping whose names are distinct, the name candidates are
    as many as the entries and their texts are pairwise distinct. *)
Theorem variable_name_texts_distinct (cur : Cursor) (token : Token)
    (options : Options) (s : ParseState) (v : JSObject GraphQLType) :
  dispatchState token = Some s ->
  variableToType options = Some v ->
  NoDup (keys v) ->
  (kind s = "Document" /\ step s <> 0) \/
  (kind s = "Variable" /\ step s = 0) ->
  exists candidates,
    getVariablesHint hintList cur token options =
      Return (hintList cur token candidates)
    /\ length candidates = length v
    /\ NoDup (map text candidates).
Proof.
  intros Hd Hv Hnd Hpos.
  exists (map (variableCandidate v) (keys v)). split; [|split].
  - unfold getVariablesHint. rewrite Hd, Hv.
    destruct Hpos as [[-> Hs]|[-> ->]]; [|reflexivity].
    apply Z.eqb_neq in Hs. now rewrite Hs.
  - unfold keys. now rewrite !length_map.
  - rewrite map_map. cbn.
    apply (NoDup_fmap_2_strong (fun k => quoted k +:+ ": ")); [|exact Hnd].
    intros a b _ _. apply nameText_inj.
Qed.

End FurtherResolverProperties.

(** ** The registered helper *)

Section HelperProperties.

Variable hintList : Cursor -> Token -> list Candidate -> option HintResult.

(** X9. The helper signals hasCompletion at most once, and exactly when
    it returns results with a non-empty list; the signal carries the editor,
    the very results it returns, and the token at the cursor. *)
Theorem hintHelper_signals (editor : Editor) (options : Options) :
  snd (hintHelper hintList editor options) =
  match fst (hintHelper hintList editor options) with
  | Return (Some results) =>
      match results_list results with
      | [] => []
      | _ :: _ =>
          [HasCompletion editor results
             (getTokenAt editor (getCursor editor))]
      end
  | _ => []
  end.
Proof.
  unfold hintHelper.
  destruct (getVariablesHint hintList (getCursor editor)
              (getTokenAt editor (getCursor editor)) options)
    as [[r0|]|]; try reflexivity.
  destruct (hint_list r0) as [|c l]; reflexivity.
Qed.

(** X10. The helper returns what the resolver returns: the same list, and
    the same range, line for line and column for column. The two ends of
    the range are editor positions when the list is non-empty and are left
    as hintList made them when it is empty. *)
Theorem hintHelper_keeps_results (editor : Editor) (options : Options)
    (r0 : HintResult) :
  getVariablesHint hintList (getCursor editor)
    (getTokenAt editor (getCursor editor)) options = Return (Some r0) ->
  exists r,
    fst (hintHelper hintList editor options) = Return (Some r)
    /\ results_list r = hint_list r0
    /\ posLine (results_from r) = hint_line (hint_from r0)
    /\ posColumn (results_from r) = hint_column (hint_from r0)
    /\ posLine (results_to r) = hint_line (hint_to r0)
    /\ posColumn (results_to r) = hint_column (hint_to r0)
    /\ (hint_list r0 <> [] ->
        exists a b, results_from r = EditorPos a /\ results_to r = EditorPos b)
    /\ (hint_list r0 = [] ->
        results_from r = HintListPos (hint_from r0) /\
        results_to r = HintListPos (hint_to r0)).
Proof.
  intros Hr. unfold hintHelper. rewrite Hr.
  destruct (hint_list r0) as [|c l] eqn:Hl; cbn; rewrite ?Hl;
    eexists; (split; [reflexivity|]); cbn; repeat split;
    try assumption; try congruence; eauto.
Qed.

(** X11. The helper raises, and then signals nothing, exactly when the
    state of the token at the cursor is Invalid with no prior state. *)
Theorem hintHelper_raises_iff (editor : Editor) (options : Options) :
  hintHelper hintList editor options = (TypeError, []) <->
  dispatchState (getTokenAt editor (getCursor editor)) = None.
Proof.
  unfold hintHelper. split.
  - intros H.
    destruct (dispatchState (getTokenAt editor (getCursor editor)))
      as [s|] eqn:Hd; [|reflexivity].
    destruct (getVariablesHint_returns hintList (getCursor editor)
                (getTokenAt editor (getCursor editor)) options s Hd)
      as [r Hr].
    rewrite Hr in H. destruct r as [r|]; [|discriminate].
    now destruct (Nat.ltb 0 (length (hint_list r))).
  - intros Hd. unfold getVariablesHint. now rewrite Hd.
Qed.

(** X12. Without a mapping in the options, and away from the start of the
    document, the helper returns nothing and signals nothing. *)
Theorem hintHelper_silent_without_mapping (editor : Editor)
    (options : Options) (s : ParseState) :
  variableToType options = None ->
  dispatchState (getTokenAt editor (getCursor editor)) = Some s ->
  ~ (kind s = "Document" /\ step s = 0) ->
  hintHelper hintList editor options = (Return None, []).
Proof.
  intros Hv Hd Hnot. unfold hintHelper, getVariablesHint. rewrite Hd, Hv.
  destruct (String.eqb_spec (kind s) "Document") as [Hk|_];
    [|reflexivity].
  destruct (Z.eqb_spec (step s) 0) as [Hs|_]; [|reflexivity].
  now destruct Hnot.
Qed.

End HelperProperties.

(** ** The further properties on the example data *)

(** Field b of variable x, through the object of x. *)
Lemma getTypeInfo_follows_path_example :
  info_type (getTypeInfo exampleVariables (fieldOfX "b")) =
    typeAtPath (get exampleVariables "x") pathToB
  /\ (forall s', insideObject (fieldOfX "b") s' ->
        info_fields (getTypeInfo exampleVariables s') =
          fieldsOf (typeAtPath (get exampleVariables "x") pathToB)).
Proof.
  apply (getTypeInfo_follows_path exampleVariables (variableValue "x")
           (fieldOfX "b") pathToB eq_refl).
  apply (descends_field (variableValue "x") (variableValue "x") objectOfX
           [] 2 "b").
  - apply descends_here.
  - apply inside_open.
  - discriminate.
Defined.

(** An object under the variable on, of type Boolean!. *)
Lemma no_fields_no_hints_example :
  getVariablesHint hintListAll exampleCursor
    (tokenIn (mkState "ObjectValue" 1 None (Some (variableValue "on"))))
    exampleOptions = Return None.
Proof.
  apply (no_fields_no_hints hintListAll exampleCursor
           (tokenIn (mkState "ObjectValue" 1 None
                       (Some (variableValue "on"))))
           exampleOptions
           (mkState "ObjectValue" 1 None (Some (variableValue "on")))
           exampleVariables);
    [reflexivity|reflexivity|left; reflexivity|reflexivity].
Defined.

(** The value of field a of x, of type Int. *)
Lemma scalar_value_no_hints_example :
  getVariablesHint hintListAll exampleCursor (tokenIn (fieldOfX "a"))
    exampleOptions = Return None.
Proof.
  apply (scalar_value_no_hints hintListAll exampleCursor
           (tokenIn (fieldOfX "a")) exampleOptions (fieldOfX "a")
           exampleVariables eq_refl eq_refl).
  - right. right. right. right. right. left. split; reflexivity.
  - right. exists "Int"%string. reflexivity.
Defined.

(** After the name of a variable, before its colon. *)
Lemma unmatched_state_no_hints_example :
  getVariablesHint hintListAll exampleCursor
    (tokenIn (mkState "Variable" 1 (Some "x"%string) (Some documentOpen)))
    exampleOptions = Return None.
Proof.
  apply (unmatched_state_no_hints hintListAll exampleCursor
           (tokenIn (mkState "Variable" 1 (Some "x"%string)
                       (Some documentOpen)))
           exampleOptions
           (mkState "Variable" 1 (Some "x"%string) (Some documentOpen))
           eq_refl).
  - discriminate.
  - intros [_ H]. discriminate H.
  - discriminate.
  - intros [H _]. discriminate H.
  - intros [H|[H|[H|[H|[[H _]|[[H _]|[_ H]]]]]]]; discriminate H.
Defined.

(** A field name being typed in the object of x. *)
Lemma field_name_hints_ignore_typed_name_example :
  getVariablesHint hintListAll exampleCursor
    (tokenIn (mkState "ObjectField" 0 (Some "zz"%string) (Some objectOfX)))
    exampleOptions =
  callHintList hintListAll exampleCursor
    (tokenIn (mkState "ObjectField" 0 (Some "zz"%string) (Some objectOfX)))
    (getVariablesHint candidatesOnly exampleCursor
       (withState
          (tokenIn (mkState "ObjectField" 0 (Some "zz"%string)
                      (Some objectOfX)))
          objectOfX)
       exampleOptions).
Proof.
  apply (field_name_hints_ignore_typed_name hintListAll exampleCursor
           (tokenIn (mkState "ObjectField" 0 (Some "zz"%string)
                       (Some objectOfX)))
           exampleOptions objectOfX (Some "zz"%string));
    reflexivity.
Defined.

(** Another cursor and another token in the same state. *)
Lemma hints_read_state_and_options_only_example :
  getVariablesHint hintListAll exampleCursor (tokenIn objectOfX)
    exampleOptions =
  callHintList hintListAll exampleCursor (tokenIn objectOfX)
    (getVariablesHint candidatesOnly {| line := 7; ch := 3 |}
       {| tok_start := 4; tok_end := 9; tok_string := "other";
          tok_type := Some "string"%string; state := objectOfX |}
       exampleOptions).
Proof.
  apply (hints_read_state_and_options_only hintListAll exampleCursor
           {| line := 7; ch := 3 |} (tokenIn objectOfX)
           {| tok_start := 4; tok_end := 9; tok_string := "other";
              tok_type := Some "string"%string; state := objectOfX |}
           exampleOptions).
  reflexivity.
Defined.

Lemma variable_name_texts_distinct_example :
  exists candidates,
    getVariablesHint hintListAll exampleCursor (tokenIn variableStart)
      exampleOptions =
      Return (hintListAll exampleCursor (tokenIn variableStart) candidates)
    /\ length candidates = length exampleVariables
    /\ NoDup (map text candidates).
Proof.
  apply (variable_name_texts_distinct hintListAll exampleCursor
           (tokenIn variableStart) exampleOptions variableStart
           exampleVariables);
    [reflexivity|reflexivity|compute_done|right; split; reflexivity].
Defined.

(** The helper on the object of x: the two fields, at editor positions. *)
Lemma hintHelper_keeps_results_example :
  exists r,
    fst (hintHelper hintListAll (editorAt (tokenIn objectOfX))
           exampleOptions) = Return (Some r)
    /\ results_list r = [fieldCandidate fieldA; fieldCandidate fieldB]
    /\ posLine (results_from r) = 0
    /\ posColumn (results_from r) = 0
    /\ posLine (results_to r) = 0
    /\ posColumn (results_to r) = 1
    /\ ([fieldCandidate fieldA; fieldCandidate fieldB] <> [] ->
        exists a b, results_from r = EditorPos a /\ results_to r = EditorPos b)
    /\ ([fieldCandidate fieldA; fieldCandidate fieldB] = [] ->
        results_from r = HintListPos {| hint_line := 0; hint_column := 0 |} /\
        results_to r = HintListPos {| hint_line := 0; hint_column := 1 |}).
Proof.
  apply (hintHelper_keeps_results hintListAll (editorAt (tokenIn objectOfX))
           exampleOptions
           {| hint_list := [fieldCandidate fieldA; fieldCandidate fieldB];
              hint_from := {| hint_line := 0; hint_column := 0 |};
              hint_to := {| hint_line := 0; hint_column := 1 |} |}).
  reflexivity.
Defined.

Lemma hintHelper_silent_without_mapping_example :
  hintHelper hintListAll (editorAt (tokenIn variableStart)) noOptions =
  (Return None, []).
Proof.
  apply (hintHelper_silent_without_mapping hintListAll
           (editorAt (tokenIn variableStart)) noOptions variableStart
           eq_refl eq_refl).
  intros [H _]. discriminate H.
Defined.
